(** * dots_ocr.py: the OCR command-line wrapper

    A shallow embedding of [internal/document/service/dots_ocr.py]: the two
    placeholder extraction functions, the command dispatcher [main], and the
    part of the Python runtime they rely on (text, exceptions, the
    file-existence probe, [print] with the encoding of standard output, and
    [json.dumps]). *)

From Stdlib Require Import List String Ascii ZArith NArith Bool Lia.
From Stdlib Require Import PrimFloat FloatOps SpecFloat.
Import ListNotations.

#[local] Set Warnings "-inexact-float,-register-all".

(** ** Text

    A Python [str] is a sequence of Unicode code points.  The literals of the
    script are all ASCII; [lit] reads them from a Rocq string. *)

Module Text.

Definition str := list N.

Definition lit (s : string) : str :=
  map N_of_ascii (list_ascii_of_string s).

Definition chr_eqb (a b : N) : bool := N.eqb a b.

Fixpoint str_eqb (a b : str) : bool :=
  match a, b with
  | [], [] => true
  | x :: a', y :: b' => chr_eqb x y && str_eqb a' b'
  | _, _ => false
  end.

(** A character is ASCII when its code point is below 128. *)
Definition is_ascii (c : N) : bool := N.ltb c 128.
Definition non_ascii (c : N) : bool := negb (is_ascii c).

(** [sub in s] of Python, as a proposition and as a test. *)
Definition contains (s sub : str) : Prop :=
  exists pre post, s = pre ++ sub ++ post.

Fixpoint starts_with (s sub : str) : bool :=
  match sub, s with
  | [], _ => true
  | y :: sub', x :: s' => chr_eqb x y && starts_with s' sub'
  | _ :: _, [] => false
  end.

Fixpoint containsb (s sub : str) : bool :=
  starts_with s sub ||
  match s with
  | [] => false
  | _ :: s' => containsb s' sub
  end.

Definition newline : str := [10%N].

End Text.
Export Text.

Open Scope Z_scope.

(** ** Numbers as text

    Decimal and hexadecimal digits, as [str(int)] and the [{0:04x}] format
    of the JSON encoder write them. *)

Module Digits.

Definition digit_chr (d : Z) : N :=
  Z.to_N (if d <? 10 then 48 + d else 87 + d).

(** The digits of [n >= 0] in base [b], most significant first; [fuel]
    bounds the number of digits. *)
Fixpoint digits_fuel (fuel : nat) (b n : Z) (acc : str) : str :=
  match fuel with
  | O => acc
  | S fuel' =>
      let acc' := digit_chr (n mod b) :: acc in
      if n / b =? 0 then acc' else digits_fuel fuel' b (n / b) acc'
  end.

Definition digits (b n : Z) : str :=
  digits_fuel (S (Z.to_nat (Z.log2 n))) b n [].

(** [str(n)] for an [int]. *)
Definition int_repr (n : Z) : str :=
  if n <? 0 then lit "-" ++ digits 10 (- n) else digits 10 n.

Definition zeros (n : Z) : str := repeat 48%N (Z.to_nat n).

(** ['{0:04x}'.format(n)]: lower-case hexadecimal, zero-padded to four. *)
Definition hex4 (n : Z) : str :=
  let d := digits 16 n in
  zeros (4 - Z.of_nat (List.length d)) ++ d.

End Digits.
Export Digits.

(** ** Floats as text

    [float.__repr__] writes the shortest decimal that reads back as the same
    binary64 number, in positional notation when the decimal point falls
    within [-4 < dp <= 16] and in exponent notation otherwise.  The float is
    [m * 2^e]; all comparisons are exact, over [Z]. *)

Module PyFloat.

Section Shortest.
Variables m e : Z.

Let u := 2 ^ Z.max e 0.
Let den := 4 * 2 ^ Z.max (- e) 0.
(** The float is [mid / den]; the decimals that read back as it lie
    between [low / den] and [high / den], the midpoints to its two
    neighbours (the lower neighbour is twice as near at a power of two). *)
Let mid := 4 * m * u.
Let high := mid + 2 * u.
Let low := mid - (if (m =? 2 ^ 52) && (-1074 <? e) then u else 2 * u).

(** [d * 10^k] compared with [b / den]. *)
Definition cmp_dec (d k b : Z) : comparison :=
  if 0 <=? k then d * 10 ^ k * den ?= b else d * den ?= b * 10 ^ (- k).

Definition reads_back (d k : Z) : bool :=
  match cmp_dec d k low, cmp_dec d k high with
  | Gt, Lt => true
  | Eq, Lt | Gt, Eq => Z.even m
  | _, _ => false
  end.

(** The least [p] from [p0] on with [mid / den < 10^p]. *)
Fixpoint find_decpt (fuel : nat) (p : Z) : Z :=
  match fuel with
  | O => p
  | S fuel' =>
      match cmp_dec 1 p mid with
      | Gt => p
      | _ => find_decpt fuel' (p + 1)
      end
  end.

Definition decpt : Z := find_decpt 640 (-324).

Definition floor_scaled (k : Z) : Z :=
  if 0 <=? k then mid / (den * 10 ^ k) else (mid * 10 ^ (- k)) / den.

(** The [n]-digit decimal nearest the float, when one reads back. *)
Definition candidate (n : Z) : option Z :=
  let k := decpt - n in
  let dlo := floor_scaled k in
  let dhi := dlo + 1 in
  match reads_back dlo k, reads_back dhi k with
  | true, true =>
      Some match cmp_dec (dlo + dhi) k (2 * mid) with
           | Gt => dlo
           | Lt => dhi
           | Eq => if Z.even dlo then dlo else dhi
           end
  | true, false => Some dlo
  | false, true => Some dhi
  | false, false => None
  end.

Fixpoint shortest (fuel : nat) (n : Z) : Z * Z :=
  match fuel with
  | O => (floor_scaled (decpt - n), n)
  | S fuel' =>
      match candidate n with
      | Some d => (d, n)
      | None => shortest fuel' (n + 1)
      end
  end.
End Shortest.

Fixpoint strip_zeros_rev (r : str) : str :=
  match r with
  | 48%N :: r' => strip_zeros_rev r'
  | _ => r
  end.

Definition strip_trailing_zeros (s : str) : str :=
  rev (strip_zeros_rev (rev s)).

(** The digits [ds] with the decimal point after the first [dp] of them. *)
Definition positional (ds : str) (dp : Z) : str :=
  let nd := Z.of_nat (List.length ds) in
  if dp <=? 0 then lit "0." ++ zeros (- dp) ++ ds
  else if nd <=? dp then ds ++ zeros (dp - nd) ++ lit ".0"
  else firstn (Z.to_nat dp) ds ++ lit "." ++ skipn (Z.to_nat dp) ds.

Definition exponent (ds : str) (dp : Z) : str :=
  let x := dp - 1 in
  let xs := digits 10 (Z.abs x) in
  firstn 1 ds
    ++ (match skipn 1 ds with [] => [] | rest => lit "." ++ rest end)
    ++ lit "e" ++ (if x <? 0 then lit "-" else lit "+")
    ++ zeros (2 - Z.of_nat (List.length xs)) ++ xs.

Definition finite_repr (m e : Z) : str :=
  let '(d, n) := shortest m e 17 1 in
  let all := digits 10 d in
  let dp := decpt m e - n + Z.of_nat (List.length all) in
  let ds := strip_trailing_zeros all in
  if (-4 <? dp) && (dp <=? 16) then positional ds dp else exponent ds dp.

Definition sign_str (s : bool) : str := if s then lit "-" else [].

(** [float.__repr__]. *)
Definition float_repr (f : float) : str :=
  match Prim2SF f with
  | S754_zero s => sign_str s ++ lit "0.0"
  | S754_infinity s => sign_str s ++ lit "inf"
  | S754_nan => lit "nan"
  | S754_finite s m e => sign_str s ++ finite_repr (Z.pos m) e
  end.

End PyFloat.
Export PyFloat.

(** ** Values

    The objects the script builds: text, numbers, lists and dicts with text
    keys.  A dict keeps its items in insertion order, as Python's does. *)

Inductive value : Type :=
| VStr (s : str)
| VInt (n : Z)
| VFloat (f : float)
| VList (items : list value)
| VDict (items : list (str * value)).

(** [d.get(key)] on a dict; [None] on anything else. *)
Definition dict_get (d : value) (key : str) : option value :=
  match d with
  | VDict items =>
      option_map snd (find (fun kv => str_eqb (fst kv) key) items)
  | _ => None
  end.

Definition dict_keys (d : value) : list str :=
  match d with
  | VDict items => map fst items
  | _ => []
  end.

(** ** [json.dumps]

    The encoder of the [json] module with its default separators.  With
    [ensure_ascii] every character outside [' '..'~'] is written as a
    [\uXXXX] escape (a surrogate pair above the basic plane); without it
    only the quote, the backslash and the control characters are escaped. *)

Module Json.

Definition escape_short (c : N) : option str :=
  match c with
  | 92%N => Some (lit "\\")
  | 34%N => Some [92%N; 34%N]
  | 8%N => Some (lit "\b")
  | 12%N => Some (lit "\f")
  | 10%N => Some (lit "\n")
  | 13%N => Some (lit "\r")
  | 9%N => Some (lit "\t")
  | _ => None
  end.

Definition escape_u (n : Z) : str := lit "\u" ++ hex4 n.

(** One character under [py_encode_basestring]. *)
Definition escape_chr (c : N) : str :=
  match escape_short c with
  | Some e => e
  | None => if (c <? 32)%N then escape_u (Z.of_N c) else [c]
  end.

(** One character under [py_encode_basestring_ascii]. *)
Definition escape_chr_ascii (c : N) : str :=
  if (32 <=? c)%N && (c <=? 126)%N && negb (c =? 92)%N && negb (c =? 34)%N
  then [c]
  else
    match escape_short c with
    | Some e => e
    | None =>
        let n := Z.of_N c in
        if n <? 65536 then escape_u n
        else
          let n' := n - 65536 in
          let s1 := Z.lor 55296 (Z.land (Z.shiftr n' 10) 1023) in
          let s2 := Z.lor 56320 (Z.land n' 1023) in
          escape_u s1 ++ escape_u s2
    end.

Definition quote : str := [34%N].

Definition encode_basestring (ensure_ascii : bool) (s : str) : str :=
  quote
    ++ flat_map (if ensure_ascii then escape_chr_ascii else escape_chr) s
    ++ quote.

Definition floatstr (f : float) : str :=
  match Prim2SF f with
  | S754_nan => lit "NaN"
  | S754_infinity s => sign_str s ++ lit "Infinity"
  | _ => float_repr f
  end.

Fixpoint json_dumps (ensure_ascii : bool) (v : value) : str :=
  match v with
  | VStr s => encode_basestring ensure_ascii s
  | VInt n => int_repr n
  | VFloat f => floatstr f
  | VList items =>
      lit "["
        ++ (fix elements (l : list value) : str :=
              match l with
              | [] => []
              | x :: l' =>
                  json_dumps ensure_ascii x
                    ++ match l' with
                       | [] => []
                       | _ => lit ", " ++ elements l'
                       end
              end) items
        ++ lit "]"
  | VDict items =>
      lit "{"
        ++ (fix members (l : list (str * value)) : str :=
              match l with
              | [] => []
              | (k, x) :: l' =>
                  encode_basestring ensure_ascii k ++ lit ": "
                    ++ json_dumps ensure_ascii x
                    ++ match l' with
                       | [] => []
                       | _ => lit ", " ++ members l'
                       end
              end) items
        ++ lit "}"
  end.

End Json.
Export Json.

(** ** Exceptions

    What a statement can raise: an instance of [Exception], of which the
    script only ever uses [str(e)], or the [SystemExit] of [sys.exit], which
    is a [BaseException] and not an [Exception]. *)

Inductive raised : Type :=
| Exception (message : str)
| SystemExit (code : Z).

Inductive outcome (A : Type) : Type :=
| Returns (a : A)
| Raises (r : raised).

Arguments Returns {A} a.
Arguments Raises {A} r.

(** ** The process and its surroundings

    A path names nothing, names a file, or cannot be probed at all (the
    probe raises: an embedded NUL on interpreters before 3.8, say).  The
    process sees the file system, appends to standard output, and leaves a
    record of the paths it probed.  Standard output has an encoding, which
    [print] goes through. *)

Inductive entry : Type :=
| Missing
| Present (contents : list Byte.byte)
| Fault (message : str).

Definition filesystem := str -> entry.

Record world : Type := World {
  fs : filesystem;
  stdout : str;
  probes : list str
}.

Module Run.

Definition M (A : Type) : Type := world -> outcome A * world.

Definition ret {A} (a : A) : M A := fun w => (Returns a, w).

Definition bind {A B} (m : M A) (k : A -> M B) : M B :=
  fun w =>
    match m w with
    | (Returns a, w') => k a w'
    | (Raises r, w') => (Raises r, w')
    end.

Definition raise {A} (r : raised) : M A := fun w => (Raises r, w).

(** [try: body  except Exception as e: handler(str(e))].  A [SystemExit]
    passes through. *)
Definition try_except_Exception {A} (body : M A) (handler : str -> M A) : M A :=
  fun w =>
    match body w with
    | (Raises (Exception message), w') => handler message w'
    | done => done
    end.

(** [os.path.exists(path)]. *)
Definition os_path_exists (path : str) : M bool :=
  fun w =>
    let w' := World (fs w) (stdout w) (probes w ++ [path]) in
    match fs w path with
    | Missing => (Returns false, w')
    | Present _ => (Returns true, w')
    | Fault message => (Raises (Exception message), w')
    end.

(** What the encoding of standard output can write outside ASCII; ASCII
    every encoding in use for a terminal or a pipe can write. *)
Definition codec : Type := N -> bool.

Definition can_encode (enc : codec) (c : N) : bool := is_ascii c || enc c.

Definition encodable (enc : codec) (s : str) : bool :=
  forallb (can_encode enc) s.

(** [str(e)] of the [UnicodeEncodeError] of a refused character; the codec,
    character and position it goes on to name are left out, nothing in the
    script reads them. *)
Definition encode_error : str := lit "codec can't encode character".

(** [print(s)] on a standard output whose encoding is [enc]: the text and a
    newline are written, unless the encoding refuses a character of the
    text; then [print] raises and nothing is written. *)
Definition print (enc : codec) (s : str) : M unit :=
  fun w =>
    if encodable enc s
    then (Returns tt, World (fs w) (stdout w ++ s ++ newline) (probes w))
    else (Raises (Exception encode_error), w).

(** [sys.exit(code)]. *)
Definition sys_exit {A} (code : Z) : M A := raise (SystemExit code).

(** [l[i]] on a list. *)
Definition index {A} (l : list A) (i : nat) : M A :=
  match nth_error l i with
  | Some a => ret a
  | None => raise (Exception (lit "list index out of range"))
  end.

End Run.
Export Run.

Declare Scope py_scope.
Delimit Scope py_scope with py.
Notation "x <- m ;; k" := (bind m (fun x => k))
  (at level 61, m at next level, right associativity) : py_scope.
Notation "m ;; k" := (bind m (fun _ => k))
  (at level 61, right associativity) : py_scope.
Open Scope py_scope.

(** ** The script *)

Definition extract_text_from_image (image_path : str) : M value :=
  try_except_Exception
    (found <- os_path_exists image_path ;;
     if negb found then
       ret (VDict [(lit "error", VStr (lit "File not found: " ++ image_path))])
     else
       let result :=
         VDict [(lit "text", VStr (lit "Simulated OCR result for " ++ image_path));
                (lit "confidence", VFloat 0.95);
                (lit "language", VStr (lit "zh"));
                (lit "boxes", VList [])] in
       ret result)
    (fun e => ret (VDict [(lit "error", VStr e)])).

Definition extract_text_from_pdf (pdf_path : str) : M value :=
  try_except_Exception
    (found <- os_path_exists pdf_path ;;
     if negb found then
       ret (VDict [(lit "error", VStr (lit "File not found: " ++ pdf_path))])
     else
       let result :=
         VDict [(lit "pages",
                 VList [VDict [(lit "page", VInt 1);
                               (lit "text",
                                VStr (lit "Simulated OCR result for page 1 of "
                                        ++ pdf_path));
                               (lit "confidence", VFloat 0.95);
                               (lit "language", VStr (lit "zh"))]])] in
       ret result)
    (fun e => ret (VDict [(lit "error", VStr e)])).

Definition usage_error : value :=
  VDict [(lit "error", VStr (lit "Usage: python dots_ocr.py <mode> <file_path>"))].

Definition invalid_mode_error : value :=
  VDict [(lit "error", VStr (lit "Invalid mode. Use 'image' or 'pdf'"))].

Definition main (enc : codec) (argv : list str) : M unit :=
  (if Z.of_nat (List.length argv) <? 3 then
     print enc (json_dumps true usage_error) ;;
     sys_exit 1
   else ret tt) ;;
  mode <- index argv 1 ;;
  file_path <- index argv 2 ;;
  if str_eqb mode (lit "image") then
    result <- extract_text_from_image file_path ;;
    print enc (json_dumps false result)
  else if str_eqb mode (lit "pdf") then
    result <- extract_text_from_pdf file_path ;;
    print enc (json_dumps false result)
  else
    print enc (json_dumps true invalid_mode_error) ;;
    sys_exit 1.

(** Running the script as a program, on a standard output of encoding
    [enc] and a file system [f]: what it wrote, the status it exited with
    (0 when [main] returns, the code of a [SystemExit], 1 for an uncaught
    exception), and the paths it probed. *)

Record completed : Type := Completed {
  output : str;
  exit_status : Z;
  probed : list str
}.

Definition status_of {A} (o : outcome A) : Z :=
  match o with
  | Returns _ => 0
  | Raises (SystemExit code) => code
  | Raises (Exception _) => 1
  end.

Definition run (enc : codec) (f : filesystem) (argv : list str) : completed :=
  let '(o, w) := main enc argv (World f [] []) in
  Completed (stdout w) (status_of o) (probes w).

(** What a call returns or raises, leaving the world aside. *)
Definition result_of {A} (m : M A) (w : world) : outcome A := fst (m w).

(** The world after one existence probe of [p]. *)
Definition probed_once (w : world) (p : str) : world :=
  World (fs w) (stdout w) (probes w ++ [p]).

(** The world after one [print] of [s]. *)
Definition printed (w : world) (s : str) : world :=
  World (fs w) (stdout w ++ s ++ newline) (probes w).

(** The objects the two functions build. *)
Definition not_found (p : str) : value :=
  VDict [(lit "error", VStr (lit "File not found: " ++ p))].

Definition caught (message : str) : value :=
  VDict [(lit "error", VStr message)].

Definition image_result (p : str) : value :=
  VDict [(lit "text", VStr (lit "Simulated OCR result for " ++ p));
         (lit "confidence", VFloat 0.95);
         (lit "language", VStr (lit "zh"));
         (lit "boxes", VList [])].

Definition pdf_page (p : str) : value :=
  VDict [(lit "page", VInt 1);
         (lit "text", VStr (lit "Simulated OCR result for page 1 of " ++ p));
         (lit "confidence", VFloat 0.95);
         (lit "language", VStr (lit "zh"))].

Definition pdf_result (p : str) : value :=
  VDict [(lit "pages", VList [pdf_page p])].

(** A small file system for the examples: one PDF, one image whose name is
    not ASCII, and one path that cannot be probed. *)
Definition demo_fs : filesystem :=
  fun p =>
    if str_eqb p (lit "./exists.pdf") then Present [Byte.x25; Byte.x50]
    else if str_eqb p (lit "./" ++ [22270%N] ++ lit ".png") then Present []
    else if str_eqb p (lit "bad") then Fault (lit "embedded null byte")
    else Missing.

Definition demo_world : world := World demo_fs [] [].

(** Two encodings of standard output: UTF-8 with the strict error handler,
    which writes every code point but the surrogates, and Latin-1, which
    writes the code points below 256. *)
Definition utf8_strict : codec :=
  fun c => ((c <? 55296)%N || (57343 <? c)%N) && (c <=? 1114111)%N.

Definition latin1 : codec := fun c => (c <? 256)%N.

(** What a command-line argument holding the byte [0xff] becomes in
    [sys.argv]: the lone surrogate [U+DCFF]. *)
Definition undecodable : str := [56575%N].

(** The shapes a result can have. *)
Definition error_shape (v : value) : Prop :=
  exists message, v = VDict [(lit "error", VStr message)].

Definition image_shape (v : value) : Prop :=
  exists text,
    v = VDict [(lit "text", VStr text);
               (lit "confidence", VFloat 0.95);
               (lit "language", VStr (lit "zh"));
               (lit "boxes", VList [])].

Definition pdf_shape (v : value) : Prop :=
  exists text,
    v = VDict [(lit "pages",
                VList [VDict [(lit "page", VInt 1);
                              (lit "text", VStr text);
                              (lit "confidence", VFloat 0.95);
                              (lit "language", VStr (lit "zh"))]])].

(** All the text held in a value: keys and strings, in the order the encoder
    writes them. *)
Fixpoint value_text (v : value) : str :=
  match v with
  | VStr s => s
  | VInt _ | VFloat _ => []
  | VList items => flat_map value_text items
  | VDict items =>
      flat_map (fun kv => let '(k, x) := kv in k ++ value_text x) items
  end.

Definition all_ascii (s : str) : Prop := Forall (fun c => is_ascii c = true) s.

(** The text between double quotes. *)
Definition quoted (s : str) : str := quote ++ s ++ quote.

(** The one-field error object as it appears on standard output. *)
Definition error_line (message : str) : str :=
  lit "{" ++ quoted (lit "error") ++ lit ": " ++ quoted message ++ lit "}"
    ++ newline.

(** The same file system with another document at the same path. *)
Definition demo_fs_longer : filesystem :=
  fun p =>
    if str_eqb p (lit "./exists.pdf")
    then Present [Byte.x25; Byte.x50; Byte.x44; Byte.x46; Byte.x2d]
    else demo_fs p.

(** A character the encoder writes as itself in either mode of
    [ensure_ascii = False]: not a control character, not the quote, not the
    backslash. *)
Definition plain (c : N) : bool :=
  (32 <=? c)%N && negb (c =? 34)%N && negb (c =? 92)%N.

(** A character that is not a control character. *)
Definition printable (c : N) : bool := (32 <=? c)%N.

(** The invocations [main] serves: a mode and a path after the program name,
    the mode being one of the two it knows. *)
Definition accepted (argv : list str) : bool :=
  match argv with
  | _ :: mode :: _ :: _ => str_eqb mode (lit "image") || str_eqb mode (lit "pdf")
  | _ => false
  end.

(** The lines a reader of the source expects for a path written as it is. *)
Definition image_line (p : str) : str :=
  lit "{" ++ quoted (lit "text") ++ lit ": "
    ++ quoted (lit "Simulated OCR result for " ++ p)
    ++ lit ", " ++ quoted (lit "confidence") ++ lit ": 0.95, "
    ++ quoted (lit "language") ++ lit ": " ++ quoted (lit "zh")
    ++ lit ", " ++ quoted (lit "boxes") ++ lit ": []}" ++ newline.

Definition pdf_line (p : str) : str :=
  lit "{" ++ quoted (lit "pages") ++ lit ": [{"
    ++ quoted (lit "page") ++ lit ": 1, "
    ++ quoted (lit "text") ++ lit ": "
    ++ quoted (lit "Simulated OCR result for page 1 of " ++ p)
    ++ lit ", " ++ quoted (lit "confidence") ++ lit ": 0.95, "
    ++ quoted (lit "language") ++ lit ": " ++ quoted (lit "zh")
    ++ lit "}]}" ++ newline.

(** What a run that has the object [r] to print, after probing [p], comes
    to: the object on one line and status 0, or, when standard output cannot
    encode the line, nothing written and the status 1 of the uncaught
    [UnicodeEncodeError]. *)
Definition reported (enc : codec) (r : value) (p : str) : completed :=
  if encodable enc (json_dumps false r)
  then Completed (json_dumps false r ++ newline) 0 [p]
  else Completed [] 1 [p].

(** The image of [demo_fs] whose name is not ASCII. *)
Definition demo_image_name : str := lit "./" ++ [22270%N] ++ lit ".png".

(** * Properties *)

(** ** Text equality *)

Lemma str_eqb_refl (a : str) : str_eqb a a = true.
Proof.
  induction a as [|x a IH]; simpl; [reflexivity|].
  unfold chr_eqb. rewrite N.eqb_refl. exact IH.
Qed.

Lemma str_eqb_eq (a b : str) : str_eqb a b = true <-> a = b.
Proof.
  split.
  - revert b. induction a as [|x a IH]; intros [|y b]; simpl; try discriminate.
    + reflexivity.
    + intros H. apply andb_true_iff in H as [Hx Hab].
      apply N.eqb_eq in Hx. apply IH in Hab. congruence.
  - intros ->. apply str_eqb_refl.
Qed.

Lemma str_eqb_neq (a b : str) : a <> b -> str_eqb a b = false.
Proof.
  intros Hne. destruct (str_eqb a b) eqn:E; [|reflexivity].
  apply str_eqb_eq in E. contradiction.
Qed.

Lemma contains_suffix (pre s : str) : contains (pre ++ s) s.
Proof. exists pre, []. now rewrite app_nil_r. Qed.

Lemma starts_with_spec (sub s : str) :
  starts_with s sub = true <-> exists post, s = sub ++ post.
Proof.
  revert s. induction sub as [|y sub IH]; intros s.
  - split; [intros _; now exists s|intros _; now destruct s].
  - destruct s as [|x s]; simpl.
    + split; [discriminate|intros [post H]; discriminate].
    + rewrite andb_true_iff, IH. unfold chr_eqb. rewrite N.eqb_eq. split.
      * intros [-> [post ->]]. now exists post.
      * intros [post H]. injection H as -> ->. split; [reflexivity|now exists post].
Qed.

(** The test [containsb] decides [contains]. *)
Lemma containsb_spec (s sub : str) :
  containsb s sub = true <-> contains s sub.
Proof.
  induction s as [|x s IH].
  - change (containsb [] sub) with (starts_with [] sub || false).
    rewrite orb_true_iff, starts_with_spec. split.
    + intros [[post H]|H]; [|discriminate]. exists [], post. exact H.
    + intros [pre [post H]]. left. exists post.
      destruct pre; [exact H|discriminate].
  - change (containsb (x :: s) sub)
      with (starts_with (x :: s) sub || containsb s sub).
    rewrite orb_true_iff, starts_with_spec, IH. split.
    + intros [[post H]|[pre [post H]]].
      * exists [], post. exact H.
      * exists (x :: pre), post. simpl. now rewrite H.
    + intros [[|x' pre] [post H]].
      * left. now exists post.
      * right. simpl in H. injection H as -> ->. now exists pre, post.
Qed.

(** ** The two functions, case by case *)

Section Stubs.
Variables (w : world) (p : str).

Lemma image_present c :
  fs w p = Present c ->
  extract_text_from_image p w = (Returns (image_result p), probed_once w p).
Proof.
  intros H. unfold extract_text_from_image, try_except_Exception, bind,
    os_path_exists. rewrite H. reflexivity.
Qed.

Lemma image_missing :
  fs w p = Missing ->
  extract_text_from_image p w = (Returns (not_found p), probed_once w p).
Proof.
  intros H. unfold extract_text_from_image, try_except_Exception, bind,
    os_path_exists. rewrite H. reflexivity.
Qed.

Lemma image_fault m :
  fs w p = Fault m ->
  extract_text_from_image p w = (Returns (caught m), probed_once w p).
Proof.
  intros H. unfold extract_text_from_image, try_except_Exception, bind,
    os_path_exists. rewrite H. reflexivity.
Qed.

Lemma pdf_present c :
  fs w p = Present c ->
  extract_text_from_pdf p w = (Returns (pdf_result p), probed_once w p).
Proof.
  intros H. unfold extract_text_from_pdf, try_except_Exception, bind,
    os_path_exists. rewrite H. reflexivity.
Qed.

Lemma pdf_missing :
  fs w p = Missing ->
  extract_text_from_pdf p w = (Returns (not_found p), probed_once w p).
Proof.
  intros H. unfold extract_text_from_pdf, try_except_Exception, bind,
    os_path_exists. rewrite H. reflexivity.
Qed.

Lemma pdf_fault m :
  fs w p = Fault m ->
  extract_text_from_pdf p w = (Returns (caught m), probed_once w p).
Proof.
  intros H. unfold extract_text_from_pdf, try_except_Exception, bind,
    os_path_exists. rewrite H. reflexivity.
Qed.
End Stubs.

(** ** The success objects *)

(** C1: for every path [p] at which a file exists, [extract_text_from_image]
    returns a mapping whose [confidence] is 0.95, whose [language] is "zh",
    whose [boxes] is the empty list and whose [text] contains [p]; these four
    are its only fields, and none depends on the contents of the file. *)
Theorem image_success_fields (w : world) (p : str) (c : list Byte.byte) :
  fs w p = Present c ->
  exists r text,
    result_of (extract_text_from_image p) w = Returns r /\
    dict_keys r = [lit "text"; lit "confidence"; lit "language"; lit "boxes"] /\
    dict_get r (lit "confidence") = Some (VFloat 0.95) /\
    dict_get r (lit "language") = Some (VStr (lit "zh")) /\
    dict_get r (lit "boxes") = Some (VList []) /\
    dict_get r (lit "text") = Some (VStr text) /\
    contains text p /\
    containsb text p = true.
Proof.
  intros H. exists (image_result p), (lit "Simulated OCR result for " ++ p).
  unfold result_of. rewrite (image_present w p c H).
  repeat split; try reflexivity.
  - apply contains_suffix.
  - apply containsb_spec, contains_suffix.
Qed.

Lemma image_success_fields_witness :
  exists r text,
    result_of (extract_text_from_image (lit "./exists.pdf")) demo_world
      = Returns r /\
    dict_keys r = [lit "text"; lit "confidence"; lit "language"; lit "boxes"] /\
    dict_get r (lit "confidence") = Some (VFloat 0.95) /\
    dict_get r (lit "language") = Some (VStr (lit "zh")) /\
    dict_get r (lit "boxes") = Some (VList []) /\
    dict_get r (lit "text") = Some (VStr text) /\
    contains text (lit "./exists.pdf") /\
    containsb text (lit "./exists.pdf") = true.
Proof.
  apply (@image_success_fields demo_world (lit "./exists.pdf")
           [Byte.x25; Byte.x50]).
  reflexivity.
Defined.

(** C2: for every path [p] at which a file exists, [extract_text_from_pdf]
    returns a mapping whose [pages] is a list of exactly one page, with
    [page] 1, [confidence] 0.95, [language] "zh" and [text] the fixed prefix
    followed by [p], whatever the file holds. *)
Theorem pdf_success_single_page (w : world) (p : str) (c : list Byte.byte) :
  fs w p = Present c ->
  exists r pages page,
    result_of (extract_text_from_pdf p) w = Returns r /\
    dict_get r (lit "pages") = Some (VList pages) /\
    List.length pages = 1%nat /\
    pages = [page] /\
    dict_get page (lit "page") = Some (VInt 1) /\
    dict_get page (lit "confidence") = Some (VFloat 0.95) /\
    dict_get page (lit "language") = Some (VStr (lit "zh")) /\
    dict_get page (lit "text")
      = Some (VStr (lit "Simulated OCR result for page 1 of " ++ p)) /\
    contains (lit "Simulated OCR result for page 1 of " ++ p) p /\
    containsb (lit "Simulated OCR result for page 1 of " ++ p) p = true.
Proof.
  intros H. exists (pdf_result p), [pdf_page p], (pdf_page p).
  unfold result_of. rewrite (pdf_present w p c H).
  repeat split; try reflexivity.
  - apply contains_suffix.
  - apply containsb_spec, contains_suffix.
Qed.

Lemma pdf_success_single_page_witness :
  exists r pages page,
    result_of (extract_text_from_pdf (lit "./exists.pdf")) demo_world
      = Returns r /\
    dict_get r (lit "pages") = Some (VList pages) /\
    List.length pages = 1%nat /\
    pages = [page] /\
    dict_get page (lit "page") = Some (VInt 1) /\
    dict_get page (lit "confidence") = Some (VFloat 0.95) /\
    dict_get page (lit "language") = Some (VStr (lit "zh")) /\
    dict_get page (lit "text")
      = Some (VStr (lit "Simulated OCR result for page 1 of "
                      ++ lit "./exists.pdf")) /\
    contains (lit "Simulated OCR result for page 1 of " ++ lit "./exists.pdf")
      (lit "./exists.pdf") /\
    containsb (lit "Simulated OCR result for page 1 of " ++ lit "./exists.pdf")
      (lit "./exists.pdf") = true.
Proof.
  apply (@pdf_success_single_page demo_world (lit "./exists.pdf")
           [Byte.x25; Byte.x50]).
  reflexivity.
Defined.

(** ** Totality and the two shapes *)

Lemma error_not_image (v : value) : error_shape v -> ~ image_shape v.
Proof. intros [m ->] [t H]. discriminate. Qed.

Lemma error_not_pdf (v : value) : error_shape v -> ~ pdf_shape v.
Proof. intros [m ->] [t H]. discriminate. Qed.

(** C9: both functions are total on paths: whatever the world, each returns
    a mapping and raises nothing; the mapping has the success shape exactly
    when a file exists at the path, and the one-field error shape otherwise
    (no file, or an exception); no mapping has both shapes. *)
Theorem stubs_total_two_shapes (w : world) (p : str) :
  exists ri rp,
    result_of (extract_text_from_image p) w = Returns ri /\
    result_of (extract_text_from_pdf p) w = Returns rp /\
    (((exists c, fs w p = Present c) /\
      image_shape ri /\ pdf_shape rp /\
      ~ error_shape ri /\ ~ error_shape rp)
     \/
     ((forall c, fs w p <> Present c) /\
      error_shape ri /\ error_shape rp /\
      ~ image_shape ri /\ ~ pdf_shape rp)).
Proof.
  unfold result_of. destruct (fs w p) as [|c|m] eqn:E.
  - exists (not_found p), (not_found p).
    rewrite (image_missing w p E), (pdf_missing w p E).
    repeat split. right.
    assert (He : error_shape (not_found p)) by (eexists; reflexivity).
    repeat split; try exact He; try discriminate.
    + now apply error_not_image.
    + now apply error_not_pdf.
  - exists (image_result p), (pdf_result p).
    rewrite (image_present w p c E), (pdf_present w p c E).
    repeat split. left. repeat split.
    + now exists c.
    + eexists; reflexivity.
    + eexists; reflexivity.
    + intros [m H]; discriminate.
    + intros [m H]; discriminate.
  - exists (caught m), (caught m).
    rewrite (image_fault w p m E), (pdf_fault w p m E).
    repeat split. right.
    assert (He : error_shape (caught m)) by (eexists; reflexivity).
    repeat split; try exact He; try discriminate.
    + now apply error_not_image.
    + now apply error_not_pdf.
Qed.

(** ** The two functions always return *)

Lemma probe_raises (w : world) (p m : str) :
  result_of (os_path_exists p) w = Raises (Exception m) -> fs w p = Fault m.
Proof.
  unfold result_of, os_path_exists.
  destruct (fs w p); simpl; intros H; try discriminate.
  now injection H as ->.
Qed.

Lemma image_returns (w : world) (p : str) :
  exists r, extract_text_from_image p w = (Returns r, probed_once w p).
Proof.
  destruct (fs w p) as [|c|m] eqn:E.
  - eexists. now apply image_missing.
  - eexists. now apply (image_present w p c).
  - eexists. now apply (image_fault w p m).
Qed.

Lemma pdf_returns (w : world) (p : str) :
  exists r, extract_text_from_pdf p w = (Returns r, probed_once w p).
Proof.
  destruct (fs w p) as [|c|m] eqn:E.
  - eexists. now apply pdf_missing.
  - eexists. now apply (pdf_present w p c).
  - eexists. now apply (pdf_fault w p m).
Qed.

Lemma stubs_by_probe (w1 w2 : world) (p : str) :
  result_of (os_path_exists p) w1 = result_of (os_path_exists p) w2 ->
  result_of (extract_text_from_image p) w1
    = result_of (extract_text_from_image p) w2 /\
  result_of (extract_text_from_pdf p) w1
    = result_of (extract_text_from_pdf p) w2.
Proof.
  unfold result_of, extract_text_from_image, extract_text_from_pdf,
    try_except_Exception, bind, os_path_exists.
  destruct (fs w1 p), (fs w2 p); simpl; intros H; try discriminate;
    try (injection H as ->); split; reflexivity.
Qed.

Lemma probe_at_start (w : world) (p : str) :
  result_of (os_path_exists p) (World (fs w) [] [])
    = result_of (os_path_exists p) w.
Proof. unfold result_of, os_path_exists. simpl. now destruct (fs w p). Qed.

(** ** The text of the encoded objects *)

Lemma all_ascii_filter (s : str) : all_ascii s -> filter non_ascii s = [].
Proof.
  induction 1 as [|c s Hc _ IH]; [reflexivity|].
  simpl. unfold non_ascii. now rewrite Hc.
Qed.

Lemma digit_chr_ascii (d : Z) : 0 <= d < 16 -> is_ascii (digit_chr d) = true.
Proof.
  intros H. unfold is_ascii, digit_chr. apply N.ltb_lt.
  destruct (d <? 10); lia.
Qed.

Lemma digits_fuel_ascii (fuel : nat) (b n : Z) (acc : str) :
  0 < b <= 16 -> all_ascii acc -> all_ascii (digits_fuel fuel b n acc).
Proof.
  intros Hb. revert n acc.
  induction fuel as [|fuel IH]; intros n acc Hacc; simpl; [exact Hacc|].
  assert (Hd : all_ascii (digit_chr (n mod b) :: acc)).
  { constructor; [|exact Hacc]. apply digit_chr_ascii.
    pose proof (Z.mod_pos_bound n b). lia. }
  destruct (n / b =? 0); [exact Hd|]. now apply IH.
Qed.

Lemma hex4_ascii (n : Z) : all_ascii (hex4 n).
Proof.
  unfold hex4, all_ascii. apply Forall_app. split.
  - unfold zeros. apply Forall_forall. intros c Hc.
    apply repeat_spec in Hc. now subst.
  - apply digits_fuel_ascii; [lia|constructor].
Qed.

Lemma escape_short_ascii (c : N) (e : str) :
  escape_short c = Some e ->
  is_ascii c = true /\ filter non_ascii e = [].
Proof.
  destruct c as [|q]; [discriminate|].
  do 7 (try (destruct q as [q|q|]));
    simpl; intros H; try discriminate H;
    injection H as <-; split; reflexivity.
Qed.

(** Without [ensure_ascii] a character outside ASCII is written as
    itself. *)
Lemma escape_chr_literal (c : N) : non_ascii c = true -> escape_chr c = [c].
Proof.
  unfold non_ascii, escape_chr. intros H.
  destruct (escape_short c) as [e|] eqn:E.
  - apply escape_short_ascii in E as [Hc _]. rewrite Hc in H. discriminate.
  - unfold is_ascii in H. apply negb_true_iff, N.ltb_ge in H.
    replace (c <? 32)%N with false by (symmetry; apply N.ltb_ge; lia).
    reflexivity.
Qed.

Lemma escape_chr_filter (c : N) :
  filter non_ascii (escape_chr c) = filter non_ascii [c].
Proof.
  destruct (non_ascii c) eqn:Hn.
  - now rewrite escape_chr_literal.
  - simpl. rewrite Hn. unfold escape_chr.
    destruct (escape_short c) as [e|] eqn:E.
    + now apply escape_short_ascii in E.
    + destruct (c <? 32)%N.
      * unfold escape_u. rewrite filter_app.
        now rewrite (all_ascii_filter _ (hex4_ascii _)).
      * simpl. now rewrite Hn.
Qed.

Lemma encode_basestring_filter (s : str) :
  filter non_ascii (encode_basestring false s) = filter non_ascii s.
Proof.
  unfold encode_basestring. rewrite !filter_app.
  change (filter non_ascii quote) with (@nil N).
  rewrite app_nil_r. cbn [app].
  induction s as [|c s IH]; [reflexivity|].
  cbn [flat_map]. rewrite filter_app, IH, escape_chr_filter.
  simpl. now destruct (non_ascii c).
Qed.

Lemma floatstr_confidence : floatstr 0.95 = lit "0.95".
Proof. vm_compute. reflexivity. Qed.

Ltac literal_filter :=
  cbn [json_dumps]; rewrite ?floatstr_confidence;
  rewrite ?filter_app, ?encode_basestring_filter, ?filter_app;
  simpl; rewrite ?app_nil_r; reflexivity.

Lemma not_found_filter (p : str) :
  filter non_ascii (json_dumps false (not_found p) ++ newline)
    = filter non_ascii (value_text (not_found p)).
Proof. unfold not_found. cbn [value_text flat_map]. literal_filter. Qed.

Lemma caught_filter (m : str) :
  filter non_ascii (json_dumps false (caught m) ++ newline)
    = filter non_ascii (value_text (caught m)).
Proof. unfold caught. cbn [value_text flat_map]. literal_filter. Qed.

Lemma image_result_filter (p : str) :
  filter non_ascii (json_dumps false (image_result p) ++ newline)
    = filter non_ascii (value_text (image_result p)).
Proof. unfold image_result. cbn [value_text flat_map]. literal_filter. Qed.

Lemma pdf_result_filter (p : str) :
  filter non_ascii (json_dumps false (pdf_result p) ++ newline)
    = filter non_ascii (value_text (pdf_result p)).
Proof.
  unfold pdf_result, pdf_page. cbn [value_text flat_map]. literal_filter.
Qed.

Lemma image_value_cases (w : world) (p : str) :
  exists r, extract_text_from_image p w = (Returns r, probed_once w p) /\
    (r = not_found p \/ r = image_result p \/ exists m, r = caught m).
Proof.
  destruct (fs w p) as [|c|m] eqn:E.
  - exists (not_found p). split; [now apply image_missing|now left].
  - exists (image_result p).
    split; [now apply (image_present w p c)|now right; left].
  - exists (caught m).
    split; [now apply image_fault|right; right; now exists m].
Qed.

Lemma pdf_value_cases (w : world) (p : str) :
  exists r, extract_text_from_pdf p w = (Returns r, probed_once w p) /\
    (r = not_found p \/ r = pdf_result p \/ exists m, r = caught m).
Proof.
  destruct (fs w p) as [|c|m] eqn:E.
  - exists (not_found p). split; [now apply pdf_missing|now left].
  - exists (pdf_result p).
    split; [now apply (pdf_present w p c)|now right; left].
  - exists (caught m).
    split; [now apply pdf_fault|right; right; now exists m].
Qed.


(** ** What standard output can encode *)

Lemma encodable_app (enc : codec) (a b : str) :
  encodable enc (a ++ b) = encodable enc a && encodable enc b.
Proof. apply forallb_app. Qed.

(** Only the characters outside ASCII matter. *)
Lemma encodable_filter (enc : codec) (s : str) :
  encodable enc s = encodable enc (filter non_ascii s).
Proof.
  unfold encodable. induction s as [|c s IH]; [reflexivity|].
  cbn [forallb filter]. unfold non_ascii at 1.
  destruct (is_ascii c) eqn:Hc; cbn [negb forallb].
  - change (can_encode enc c) with (is_ascii c || enc c).
    rewrite Hc. exact IH.
  - now rewrite IH.
Qed.

Lemma encodable_line (enc : codec) (r : value) (t : str) :
  filter non_ascii (json_dumps false r ++ newline) = filter non_ascii t ->
  encodable enc (json_dumps false r) = encodable enc t.
Proof.
  intros H. rewrite (encodable_filter enc (json_dumps false r)).
  rewrite (encodable_filter enc t), <- H, filter_app.
  change (filter non_ascii newline) with (@nil N). now rewrite app_nil_r.
Qed.

Lemma not_found_encodable (enc : codec) (p : str) :
  encodable enc (json_dumps false (not_found p)) = encodable enc p.
Proof.
  transitivity (encodable enc (value_text (not_found p))).
  - apply encodable_line, not_found_filter.
  - rewrite (encodable_filter enc (value_text _)), (encodable_filter enc p).
    f_equal. unfold not_found. cbn [value_text flat_map].
    rewrite ?filter_app. simpl. now rewrite ?app_nil_r.
Qed.

Lemma caught_encodable (enc : codec) (m : str) :
  encodable enc (json_dumps false (caught m)) = encodable enc m.
Proof.
  transitivity (encodable enc (value_text (caught m))).
  - apply encodable_line, caught_filter.
  - rewrite (encodable_filter enc (value_text _)), (encodable_filter enc m).
    f_equal. unfold caught. cbn [value_text flat_map].
    rewrite ?filter_app. simpl. now rewrite ?app_nil_r.
Qed.

Lemma image_result_encodable (enc : codec) (p : str) :
  encodable enc (json_dumps false (image_result p)) = encodable enc p.
Proof.
  transitivity (encodable enc (value_text (image_result p))).
  - apply encodable_line, image_result_filter.
  - rewrite (encodable_filter enc (value_text _)), (encodable_filter enc p).
    f_equal. unfold image_result. cbn [value_text flat_map].
    rewrite ?filter_app. simpl. now rewrite ?app_nil_r.
Qed.

Lemma pdf_result_encodable (enc : codec) (p : str) :
  encodable enc (json_dumps false (pdf_result p)) = encodable enc p.
Proof.
  transitivity (encodable enc (value_text (pdf_result p))).
  - apply encodable_line, pdf_result_filter.
  - rewrite (encodable_filter enc (value_text _)), (encodable_filter enc p).
    f_equal. unfold pdf_result, pdf_page. cbn [value_text flat_map].
    rewrite ?filter_app. simpl. now rewrite ?app_nil_r.
Qed.

(** ** [print] *)

Lemma print_written (enc : codec) (s : str) (w : world) :
  encodable enc s = true -> print enc s w = (Returns tt, printed w s).
Proof. intros H. unfold print. now rewrite H. Qed.

Lemma print_refused (enc : codec) (s : str) (w : world) :
  encodable enc s = false ->
  print enc s w = (Raises (Exception encode_error), w).
Proof. intros H. unfold print. now rewrite H. Qed.

(** ** The dispatcher, branch by branch *)

Lemma main_usage (enc : codec) (argv : list str) (w : world) :
  (List.length argv < 3)%nat ->
  main enc argv w
    = (Raises (SystemExit 1), printed w (json_dumps true usage_error)).
Proof.
  intros H. unfold main, bind at 1.
  replace (Z.of_nat (List.length argv) <? 3) with true
    by (symmetry; apply Z.ltb_lt; lia).
  reflexivity.
Qed.

Lemma main_dispatch
    (enc : codec) (prog mode file_path : str) (rest : list str) (w : world) :
  main enc (prog :: mode :: file_path :: rest) w =
  (if str_eqb mode (lit "image") then
     result <- extract_text_from_image file_path ;;
     print enc (json_dumps false result)
   else if str_eqb mode (lit "pdf") then
     result <- extract_text_from_pdf file_path ;;
     print enc (json_dumps false result)
   else
     print enc (json_dumps true invalid_mode_error) ;;
     sys_exit 1) w.
Proof.
  unfold main, bind at 1.
  replace (Z.of_nat (List.length (prog :: mode :: file_path :: rest)) <? 3)
    with false by (symmetry; apply Z.ltb_ge; simpl List.length; lia).
  reflexivity.
Qed.

Lemma main_image
    (enc : codec) (prog p : str) (rest : list str) (w : world) (r : value) :
  extract_text_from_image p w = (Returns r, probed_once w p) ->
  main enc (prog :: lit "image" :: p :: rest) w
    = print enc (json_dumps false r) (probed_once w p).
Proof.
  intros H. rewrite main_dispatch.
  change (str_eqb (lit "image") (lit "image")) with true. cbv iota.
  unfold bind. rewrite H. reflexivity.
Qed.

Lemma main_pdf
    (enc : codec) (prog p : str) (rest : list str) (w : world) (r : value) :
  extract_text_from_pdf p w = (Returns r, probed_once w p) ->
  main enc (prog :: lit "pdf" :: p :: rest) w
    = print enc (json_dumps false r) (probed_once w p).
Proof.
  intros H. rewrite main_dispatch.
  change (str_eqb (lit "pdf") (lit "image")) with false.
  change (str_eqb (lit "pdf") (lit "pdf")) with true. cbv iota.
  unfold bind. rewrite H. reflexivity.
Qed.

Lemma main_invalid
    (enc : codec) (prog mode p : str) (rest : list str) (w : world) :
  mode <> lit "image" -> mode <> lit "pdf" ->
  main enc (prog :: mode :: p :: rest) w
    = (Raises (SystemExit 1), printed w (json_dumps true invalid_mode_error)).
Proof.
  intros Hi Hp. rewrite main_dispatch.
  rewrite (str_eqb_neq _ _ Hi), (str_eqb_neq _ _ Hp). reflexivity.
Qed.

(** ** Runs, branch by branch *)

Lemma run_usage (enc : codec) (f : filesystem) (argv : list str) :
  (List.length argv < 3)%nat ->
  run enc f argv = Completed (json_dumps true usage_error ++ newline) 1 [].
Proof. intros H. unfold run. now rewrite (main_usage enc argv _ H). Qed.

Lemma run_invalid
    (enc : codec) (f : filesystem) (prog mode p : str) (rest : list str) :
  mode <> lit "image" -> mode <> lit "pdf" ->
  run enc f (prog :: mode :: p :: rest)
    = Completed (json_dumps true invalid_mode_error ++ newline) 1 [].
Proof.
  intros Hi Hp. unfold run.
  now rewrite (main_invalid enc prog mode p rest _ Hi Hp).
Qed.

Lemma print_reported (enc : codec) (f : filesystem) (r : value) (p : str) :
  (let '(o, w) :=
     print enc (json_dumps false r) (probed_once (World f [] []) p) in
   Completed (stdout w) (status_of o) (probes w))
  = reported enc r p.
Proof.
  unfold reported, print. now destruct (encodable enc (json_dumps false r)).
Qed.

Lemma run_image
    (enc : codec) (f : filesystem) (prog p : str) (rest : list str) (r : value) :
  extract_text_from_image p (World f [] [])
    = (Returns r, probed_once (World f [] []) p) ->
  run enc f (prog :: lit "image" :: p :: rest) = reported enc r p.
Proof.
  intros H. unfold run. rewrite (main_image enc prog p rest _ r H).
  apply print_reported.
Qed.

Lemma run_pdf
    (enc : codec) (f : filesystem) (prog p : str) (rest : list str) (r : value) :
  extract_text_from_pdf p (World f [] [])
    = (Returns r, probed_once (World f [] []) p) ->
  run enc f (prog :: lit "pdf" :: p :: rest) = reported enc r p.
Proof.
  intros H. unfold run. rewrite (main_pdf enc prog p rest _ r H).
  apply print_reported.
Qed.

Lemma reported_not_found (enc : codec) (p : str) :
  reported enc (not_found p) p
    = if encodable enc p
      then Completed (json_dumps false (not_found p) ++ newline) 0 [p]
      else Completed [] 1 [p].
Proof. unfold reported. now rewrite not_found_encodable. Qed.

Lemma reported_caught (enc : codec) (m p : str) :
  reported enc (caught m) p
    = if encodable enc m
      then Completed (json_dumps false (caught m) ++ newline) 0 [p]
      else Completed [] 1 [p].
Proof. unfold reported. now rewrite caught_encodable. Qed.

Lemma reported_image (enc : codec) (p : str) :
  reported enc (image_result p) p
    = if encodable enc p
      then Completed (json_dumps false (image_result p) ++ newline) 0 [p]
      else Completed [] 1 [p].
Proof. unfold reported. now rewrite image_result_encodable. Qed.

Lemma reported_pdf (enc : codec) (p : str) :
  reported enc (pdf_result p) p
    = if encodable enc p
      then Completed (json_dumps false (pdf_result p) ++ newline) 0 [p]
      else Completed [] 1 [p].
Proof. unfold reported. now rewrite pdf_result_encodable. Qed.

(** ** Missing files *)

(** C3, as the code has it: for every path [p] at which there is no file,
    both functions return the mapping with the single field [error] holding
    "File not found: " followed by [p]; the script run on [p] in either mode
    prints that object and exits with status 0 when standard output can
    encode [p], and otherwise writes nothing and exits with status 1, the
    [UnicodeEncodeError] of [print] being caught nowhere. *)
Theorem missing_file_error (enc : codec) (w : world) (p : str) :
  fs w p = Missing ->
  result_of (extract_text_from_image p) w
    = Returns (VDict [(lit "error", VStr (lit "File not found: " ++ p))]) /\
  result_of (extract_text_from_pdf p) w
    = Returns (VDict [(lit "error", VStr (lit "File not found: " ++ p))]) /\
  forall (prog : str) (rest : list str),
    run enc (fs w) (prog :: lit "image" :: p :: rest)
      = (if encodable enc p
         then Completed (json_dumps false (not_found p) ++ newline) 0 [p]
         else Completed [] 1 [p]) /\
    run enc (fs w) (prog :: lit "pdf" :: p :: rest)
      = (if encodable enc p
         then Completed (json_dumps false (not_found p) ++ newline) 0 [p]
         else Completed [] 1 [p]).
Proof.
  intros H. unfold result_of.
  rewrite (image_missing w p H), (pdf_missing w p H).
  repeat split.
  - rewrite (run_image enc (fs w) prog p rest (not_found p)
               (image_missing (World (fs w) [] []) p H)).
    apply reported_not_found.
  - rewrite (run_pdf enc (fs w) prog p rest (not_found p)
               (pdf_missing (World (fs w) [] []) p H)).
    apply reported_not_found.
Qed.

Lemma missing_file_error_witness :
  result_of (extract_text_from_image (lit "./missing.png")) demo_world
    = Returns (VDict [(lit "error",
                       VStr (lit "File not found: " ++ lit "./missing.png"))]) /\
  result_of (extract_text_from_pdf (lit "./missing.png")) demo_world
    = Returns (VDict [(lit "error",
                       VStr (lit "File not found: " ++ lit "./missing.png"))]) /\
  forall (prog : str) (rest : list str),
    run utf8_strict (fs demo_world)
        (prog :: lit "image" :: lit "./missing.png" :: rest)
      = (if encodable utf8_strict (lit "./missing.png")
         then Completed
                (json_dumps false (not_found (lit "./missing.png")) ++ newline)
                0 [lit "./missing.png"]
         else Completed [] 1 [lit "./missing.png"]) /\
    run utf8_strict (fs demo_world)
        (prog :: lit "pdf" :: lit "./missing.png" :: rest)
      = (if encodable utf8_strict (lit "./missing.png")
         then Completed
                (json_dumps false (not_found (lit "./missing.png")) ++ newline)
                0 [lit "./missing.png"]
         else Completed [] 1 [lit "./missing.png"]).
Proof.
  apply (@missing_file_error utf8_strict demo_world (lit "./missing.png")).
  reflexivity.
Defined.

(** The claim as the specification words it fails: a path that is missing
    and that standard output cannot encode (the argument byte [0xff], on a
    strict UTF-8 output) ends the run with status 1 and nothing written. *)
Lemma missing_file_exit_counterexample :
  demo_fs undecodable = Missing /\
  run utf8_strict demo_fs [lit "dots_ocr.py"; lit "image"; undecodable]
    = Completed [] 1 [undecodable].
Proof. split; vm_compute; reflexivity. Qed.

(** ** Usage errors *)

(** C4: run with fewer than two arguments after the program name, the
    script prints one JSON object whose only key is [error] and whose value
    is the usage message, and exits with status 1. *)
Theorem too_few_arguments_usage
    (enc : codec) (f : filesystem) (argv : list str) :
  (List.length argv < 3)%nat ->
  run enc f argv
    = Completed (json_dumps true usage_error ++ newline) 1 [] /\
  dict_keys usage_error = [lit "error"] /\
  output (run enc f argv)
    = error_line (lit "Usage: python dots_ocr.py <mode> <file_path>") /\
  exit_status (run enc f argv) = 1 /\
  exit_status (run enc f argv) <> 0.
Proof.
  intros H. rewrite (run_usage enc f argv H).
  repeat split. discriminate.
Qed.

Lemma too_few_arguments_usage_witness :
  run latin1 demo_fs [lit "dots_ocr.py"; lit "image"]
    = Completed (json_dumps true usage_error ++ newline) 1 [] /\
  dict_keys usage_error = [lit "error"] /\
  output (run latin1 demo_fs [lit "dots_ocr.py"; lit "image"])
    = error_line (lit "Usage: python dots_ocr.py <mode> <file_path>") /\
  exit_status (run latin1 demo_fs [lit "dots_ocr.py"; lit "image"]) = 1 /\
  exit_status (run latin1 demo_fs [lit "dots_ocr.py"; lit "image"]) <> 0.
Proof.
  apply (@too_few_arguments_usage latin1 demo_fs
           [lit "dots_ocr.py"; lit "image"]).
  simpl. lia.
Defined.

(** C5: run with at least two arguments of which the first is neither
    "image" nor "pdf", the script prints the fixed invalid-mode object and
    exits with status 1; it probes no path, so neither extraction function
    ran. *)
Theorem invalid_mode_rejected
    (enc : codec) (f : filesystem) (argv : list str) (mode : str) :
  (3 <= List.length argv)%nat ->
  nth_error argv 1 = Some mode ->
  mode <> lit "image" ->
  mode <> lit "pdf" ->
  run enc f argv
    = Completed (error_line (lit "Invalid mode. Use 'image' or 'pdf'")) 1 [] /\
  output (run enc f argv) = json_dumps true invalid_mode_error ++ newline /\
  exit_status (run enc f argv) = 1 /\
  probed (run enc f argv) = [].
Proof.
  intros Hlen Hmode Hi Hp.
  destruct argv as [|prog [|mode' [|p rest]]]; simpl in Hlen; try lia.
  simpl in Hmode. injection Hmode as ->.
  rewrite (run_invalid enc f prog mode p rest Hi Hp).
  repeat split.
Qed.

Lemma invalid_mode_rejected_witness :
  run latin1 demo_fs [lit "dots_ocr.py"; lit "txt"; lit "./exists.pdf"]
    = Completed (error_line (lit "Invalid mode. Use 'image' or 'pdf'")) 1 [] /\
  output (run latin1 demo_fs [lit "dots_ocr.py"; lit "txt"; lit "./exists.pdf"])
    = json_dumps true invalid_mode_error ++ newline /\
  exit_status
    (run latin1 demo_fs [lit "dots_ocr.py"; lit "txt"; lit "./exists.pdf"])
    = 1 /\
  probed (run latin1 demo_fs [lit "dots_ocr.py"; lit "txt"; lit "./exists.pdf"])
    = [].
Proof.
  apply (@invalid_mode_rejected latin1 demo_fs
           [lit "dots_ocr.py"; lit "txt"; lit "./exists.pdf"] (lit "txt")).
  - simpl. lia.
  - reflexivity.
  - discriminate.
  - discriminate.
Defined.

(** ** Accepted runs, by what the path names *)

Lemma run_image_entry
    (enc : codec) (f : filesystem) (prog p : str) (rest : list str) :
  run enc f (prog :: lit "image" :: p :: rest)
    = match f p with
      | Missing => reported enc (not_found p) p
      | Present _ => reported enc (image_result p) p
      | Fault m => reported enc (caught m) p
      end.
Proof.
  destruct (f p) as [|c|m] eqn:E; apply run_image.
  - now apply image_missing.
  - now apply (image_present (World f [] []) p c).
  - now apply image_fault.
Qed.

Lemma run_pdf_entry
    (enc : codec) (f : filesystem) (prog p : str) (rest : list str) :
  run enc f (prog :: lit "pdf" :: p :: rest)
    = match f p with
      | Missing => reported enc (not_found p) p
      | Present _ => reported enc (pdf_result p) p
      | Fault m => reported enc (caught m) p
      end.
Proof.
  destruct (f p) as [|c|m] eqn:E; apply run_pdf.
  - now apply pdf_missing.
  - now apply (pdf_present (World f [] []) p c).
  - now apply pdf_fault.
Qed.

(** The text standard output must encode for the run on [p] to print: the
    path, or the message of the exception the probe raised. *)
Lemma reported_refusal (enc : codec) (f : filesystem) (r : value) (p : str) :
  match f p with
  | Fault m => r = caught m
  | _ => r = not_found p \/ r = image_result p \/ r = pdf_result p
  end ->
  exit_status (reported enc r p) <> 0 ->
  output (reported enc r p) = [] /\
  (encodable enc p = false \/
   exists m, f p = Fault m /\ encodable enc m = false).
Proof.
  intros Hr Hs. unfold reported in *.
  destruct (encodable enc (json_dumps false r)) eqn:E;
    [now destruct Hs|]. split; [reflexivity|].
  destruct (f p) as [|c|m].
  - left. destruct Hr as [-> | [-> | ->]];
      now rewrite ?not_found_encodable, ?image_result_encodable,
        ?pdf_result_encodable in E.
  - left. destruct Hr as [-> | [-> | ->]];
      now rewrite ?not_found_encodable, ?image_result_encodable,
        ?pdf_result_encodable in E.
  - right. exists m. subst r. now rewrite caught_encodable in E.
Qed.

Lemma nonzero_exit_cause (enc : codec) (f : filesystem) (argv : list str) :
  exit_status (run enc f argv) <> 0 ->
  (List.length argv < 3)%nat \/
  (exists mode,
     nth_error argv 1 = Some mode /\
     mode <> lit "image" /\ mode <> lit "pdf") \/
  (exists p,
     nth_error argv 2 = Some p /\
     output (run enc f argv) = [] /\
     (encodable enc p = false \/
      exists m, f p = Fault m /\ encodable enc m = false)).
Proof.
  intros H.
  destruct argv as [|prog [|mode [|p rest]]]; simpl; try (left; lia).
  right.
  destruct (str_eqb mode (lit "image")) eqn:Ei.
  - apply str_eqb_eq in Ei as ->. right. exists p. split; [reflexivity|].
    rewrite run_image_entry in *.
    assert (Hr : exists r,
               match f p with
               | Missing => reported enc (not_found p) p
               | Present _ => reported enc (image_result p) p
               | Fault m => reported enc (caught m) p
               end = reported enc r p /\
               match f p with
               | Fault m => r = caught m
               | _ => r = not_found p \/ r = image_result p \/ r = pdf_result p
               end)
      by (destruct (f p); eexists; split; try reflexivity; tauto).
    destruct Hr as [r [Heq Hr]]. rewrite Heq in *.
    now apply (reported_refusal enc f r p).
  - destruct (str_eqb mode (lit "pdf")) eqn:Ep.
    + apply str_eqb_eq in Ep as ->. right. exists p. split; [reflexivity|].
      rewrite run_pdf_entry in *.
      assert (Hr : exists r,
                 match f p with
                 | Missing => reported enc (not_found p) p
                 | Present _ => reported enc (pdf_result p) p
                 | Fault m => reported enc (caught m) p
                 end = reported enc r p /\
                 match f p with
                 | Fault m => r = caught m
                 | _ => r = not_found p \/ r = image_result p
                        \/ r = pdf_result p
                 end)
        by (destruct (f p); eexists; split; try reflexivity; tauto).
      destruct Hr as [r [Heq Hr]]. rewrite Heq in *.
      now apply (reported_refusal enc f r p).
    + left. exists mode. split; [reflexivity|].
      split; intros ->; discriminate.
Qed.

(** ** Exceptions inside the two functions *)

(** C6, as the code has it: when an exception is raised inside either
    function (the existence probe of [p] raises [e], with [str(e) = m]), the
    function catches it and returns the mapping whose single field [error]
    holds [m]; nothing raised inside a function leaves it.  The script run
    on [p] then prints that object and exits with status 0 when standard
    output can encode [m], and otherwise writes nothing and exits with
    status 1.  Whatever the arguments, a non-zero exit comes from one of the
    two checks of [main] (too few arguments, a mode that is neither "image"
    nor "pdf") or from a [print] that standard output refused, of a path or
    of an exception message it cannot encode. *)
Theorem exception_becomes_error_object (enc : codec) (w : world) (p m : str) :
  result_of (os_path_exists p) w = Raises (Exception m) ->
  result_of (extract_text_from_image p) w
    = Returns (VDict [(lit "error", VStr m)]) /\
  result_of (extract_text_from_pdf p) w
    = Returns (VDict [(lit "error", VStr m)]) /\
  (forall (prog : str) (rest : list str),
     run enc (fs w) (prog :: lit "image" :: p :: rest)
       = (if encodable enc m
          then Completed (json_dumps false (caught m) ++ newline) 0 [p]
          else Completed [] 1 [p]) /\
     run enc (fs w) (prog :: lit "pdf" :: p :: rest)
       = (if encodable enc m
          then Completed (json_dumps false (caught m) ++ newline) 0 [p]
          else Completed [] 1 [p])) /\
  (forall (q : str), exists r,
     result_of (extract_text_from_image q) w = Returns r /\
     exists r', result_of (extract_text_from_pdf q) w = Returns r') /\
  (forall (enc' : codec) (f : filesystem) (argv : list str),
     exit_status (run enc' f argv) <> 0 ->
     (List.length argv < 3)%nat \/
     (exists mode,
        nth_error argv 1 = Some mode /\
        mode <> lit "image" /\ mode <> lit "pdf") \/
     (exists q,
        nth_error argv 2 = Some q /\
        output (run enc' f argv) = [] /\
        (encodable enc' q = false \/
         exists m', f q = Fault m' /\ encodable enc' m' = false))).
Proof.
  intros H. apply probe_raises in H. unfold result_of.
  rewrite (image_fault w p m H), (pdf_fault w p m H).
  repeat split.
  - rewrite run_image_entry, H. apply reported_caught.
  - rewrite run_pdf_entry, H. apply reported_caught.
  - intros q. destruct (image_returns w q) as [r Hr].
    destruct (pdf_returns w q) as [r' Hr'].
    exists r. rewrite Hr. split; [reflexivity|].
    exists r'. now rewrite Hr'.
  - apply nonzero_exit_cause.
Qed.

Lemma exception_becomes_error_object_witness :
  result_of (extract_text_from_image (lit "bad")) demo_world
    = Returns (VDict [(lit "error", VStr (lit "embedded null byte"))]) /\
  result_of (extract_text_from_pdf (lit "bad")) demo_world
    = Returns (VDict [(lit "error", VStr (lit "embedded null byte"))]) /\
  (forall (prog : str) (rest : list str),
     run utf8_strict (fs demo_world) (prog :: lit "image" :: lit "bad" :: rest)
       = (if encodable utf8_strict (lit "embedded null byte")
          then Completed
                 (json_dumps false (caught (lit "embedded null byte"))
                    ++ newline) 0 [lit "bad"]
          else Completed [] 1 [lit "bad"]) /\
     run utf8_strict (fs demo_world) (prog :: lit "pdf" :: lit "bad" :: rest)
       = (if encodable utf8_strict (lit "embedded null byte")
          then Completed
                 (json_dumps false (caught (lit "embedded null byte"))
                    ++ newline) 0 [lit "bad"]
          else Completed [] 1 [lit "bad"])) /\
  (forall (q : str), exists r,
     result_of (extract_text_from_image q) demo_world = Returns r /\
     exists r', result_of (extract_text_from_pdf q) demo_world = Returns r') /\
  (forall (enc' : codec) (f : filesystem) (argv : list str),
     exit_status (run enc' f argv) <> 0 ->
     (List.length argv < 3)%nat \/
     (exists mode,
        nth_error argv 1 = Some mode /\
        mode <> lit "image" /\ mode <> lit "pdf") \/
     (exists q,
        nth_error argv 2 = Some q /\
        output (run enc' f argv) = [] /\
        (encodable enc' q = false \/
         exists m', f q = Fault m' /\ encodable enc' m' = false))).
Proof.
  apply (@exception_becomes_error_object utf8_strict demo_world (lit "bad")
           (lit "embedded null byte")).
  reflexivity.
Defined.

(** The claim as the specification words it fails in its last sentence: with
    a mode and a path given and the mode "image", on a Latin-1 standard
    output, the image whose name is not Latin-1 is found, yet the run exits
    with status 1: the [UnicodeEncodeError] of [print] is a third way out. *)
Lemma third_nonzero_exit_counterexample :
  List.length [lit "dots_ocr.py"; lit "image"; demo_image_name] = 3%nat /\
  demo_fs demo_image_name = Present [] /\
  result_of (extract_text_from_image demo_image_name) demo_world
    = Returns (image_result demo_image_name) /\
  run latin1 demo_fs [lit "dots_ocr.py"; lit "image"; demo_image_name]
    = Completed [] 1 [demo_image_name].
Proof. repeat split; vm_compute; reflexivity. Qed.

(** ** Independence from file contents *)

(** C7: the results of both functions on [p] depend on the surroundings only
    through the outcome of the existence probe of [p]: two worlds that agree
    on it (files of different contents, say) give identical results and, on
    one standard output, identical runs of the script, and all either
    function does to the world is that one probe. *)
Theorem results_ignore_file_contents (enc : codec) (w1 w2 : world) (p : str) :
  result_of (os_path_exists p) w1 = result_of (os_path_exists p) w2 ->
  result_of (extract_text_from_image p) w1
    = result_of (extract_text_from_image p) w2 /\
  result_of (extract_text_from_pdf p) w1
    = result_of (extract_text_from_pdf p) w2 /\
  (forall (prog : str) (rest : list str),
     run enc (fs w1) (prog :: lit "image" :: p :: rest)
       = run enc (fs w2) (prog :: lit "image" :: p :: rest) /\
     run enc (fs w1) (prog :: lit "pdf" :: p :: rest)
       = run enc (fs w2) (prog :: lit "pdf" :: p :: rest)) /\
  snd (extract_text_from_image p w1) = probed_once w1 p /\
  snd (extract_text_from_pdf p w1) = probed_once w1 p.
Proof.
  intros H.
  destruct (stubs_by_probe w1 w2 p H) as [Hi Hp].
  assert (Hruns : forall prog rest,
            run enc (fs w1) (prog :: lit "image" :: p :: rest)
              = run enc (fs w2) (prog :: lit "image" :: p :: rest) /\
            run enc (fs w1) (prog :: lit "pdf" :: p :: rest)
              = run enc (fs w2) (prog :: lit "pdf" :: p :: rest)).
  { intros prog rest. rewrite !run_image_entry, !run_pdf_entry.
    unfold result_of, os_path_exists in H.
    destruct (fs w1 p), (fs w2 p); simpl in H; try discriminate H;
      try (injection H as ->); split; reflexivity. }
  repeat split.
  - exact Hi.
  - exact Hp.
  - apply Hruns.
  - apply Hruns.
  - destruct (image_returns w1 p) as [r R]. now rewrite R.
  - destruct (pdf_returns w1 p) as [r R]. now rewrite R.
Qed.

Lemma results_ignore_file_contents_witness :
  demo_fs (lit "./exists.pdf") <> demo_fs_longer (lit "./exists.pdf") /\
  result_of (extract_text_from_image (lit "./exists.pdf")) demo_world
    = result_of (extract_text_from_image (lit "./exists.pdf"))
        (World demo_fs_longer (lit "earlier output") []) /\
  result_of (extract_text_from_pdf (lit "./exists.pdf")) demo_world
    = result_of (extract_text_from_pdf (lit "./exists.pdf"))
        (World demo_fs_longer (lit "earlier output") []) /\
  (forall (prog : str) (rest : list str),
     run utf8_strict demo_fs (prog :: lit "image" :: lit "./exists.pdf" :: rest)
       = run utf8_strict demo_fs_longer
           (prog :: lit "image" :: lit "./exists.pdf" :: rest) /\
     run utf8_strict demo_fs (prog :: lit "pdf" :: lit "./exists.pdf" :: rest)
       = run utf8_strict demo_fs_longer
           (prog :: lit "pdf" :: lit "./exists.pdf" :: rest)) /\
  snd (extract_text_from_image (lit "./exists.pdf") demo_world)
    = probed_once demo_world (lit "./exists.pdf") /\
  snd (extract_text_from_pdf (lit "./exists.pdf") demo_world)
    = probed_once demo_world (lit "./exists.pdf").
Proof.
  split; [discriminate|].
  apply (@results_ignore_file_contents utf8_strict demo_world
           (World demo_fs_longer (lit "earlier output") [])
           (lit "./exists.pdf")).
  reflexivity.
Defined.

(** ** Extra arguments *)

(** C10: arguments after the first two are ignored: a run with any further
    arguments writes the same text, exits with the same status and probes
    the same paths as the run with the first two alone. *)
Theorem extra_arguments_ignored
    (enc : codec) (f : filesystem) (prog mode file_path : str)
    (rest : list str) :
  run enc f (prog :: mode :: file_path :: rest)
    = run enc f [prog; mode; file_path].
Proof. unfold run. now rewrite !main_dispatch. Qed.

(** ** What reaches standard output *)

Lemma result_shapes (r : value) (p : str) :
  r = not_found p \/ r = image_result p \/ r = pdf_result p \/
  (exists m, r = caught m) ->
  exists items,
    r = VDict items /\
    filter non_ascii (json_dumps false r ++ newline)
      = filter non_ascii (value_text r).
Proof.
  intros [->|[->|[->|[m ->]]]]; eexists; (split; [reflexivity|]).
  - apply not_found_filter.
  - apply image_result_filter.
  - apply pdf_result_filter.
  - apply caught_filter.
Qed.

Lemma reported_line (enc : codec) (r : value) (p : str) :
  (encodable enc (json_dumps false r) = true ->
   output (reported enc r p) = json_dumps false r ++ newline) /\
  (encodable enc (json_dumps false r) = false ->
   output (reported enc r p) = [] /\ exit_status (reported enc r p) = 1).
Proof.
  unfold reported. destruct (encodable enc (json_dumps false r)).
  - split; [reflexivity|discriminate].
  - split; [discriminate|now split].
Qed.

(** C8, as the code has it: on every invocation the script writes at most
    one line.  It has one JSON object to print; when standard output can
    encode it, the line written is that object encoded without ASCII
    escaping, so that the characters outside ASCII on standard output are
    those of the object's text, each written as itself, in order; when
    standard output cannot encode it, [print] raises, nothing is written
    and the exit status is 1.  The usage and invalid-mode objects hold ASCII
    text only, so every standard output can encode them and they are always
    written. *)
Theorem one_json_object_unescaped
    (enc : codec) (f : filesystem) (argv : list str) :
  exists items,
    (encodable enc (json_dumps false (VDict items)) = true ->
     output (run enc f argv) = json_dumps false (VDict items) ++ newline /\
     filter non_ascii (output (run enc f argv))
       = filter non_ascii (value_text (VDict items))) /\
    (encodable enc (json_dumps false (VDict items)) = false ->
     output (run enc f argv) = [] /\ exit_status (run enc f argv) = 1) /\
    (accepted argv = false ->
     encodable enc (json_dumps false (VDict items)) = true) /\
    (forall c, non_ascii c = true -> escape_chr c = [c]).
Proof.
  assert (Hrep : forall r p, run enc f argv = reported enc r p ->
            accepted argv = true ->
            r = not_found p \/ r = image_result p \/ r = pdf_result p \/
            (exists m, r = caught m) ->
            exists items,
              (encodable enc (json_dumps false (VDict items)) = true ->
               output (run enc f argv)
                 = json_dumps false (VDict items) ++ newline /\
               filter non_ascii (output (run enc f argv))
                 = filter non_ascii (value_text (VDict items))) /\
              (encodable enc (json_dumps false (VDict items)) = false ->
               output (run enc f argv) = [] /\
               exit_status (run enc f argv) = 1) /\
              (accepted argv = false ->
               encodable enc (json_dumps false (VDict items)) = true) /\
              (forall c, non_ascii c = true -> escape_chr c = [c])).
  { intros r p Hrun Hacc Hr.
    destruct (result_shapes r p Hr) as [items [-> Hf]].
    exists items. rewrite Hrun.
    destruct (reported_line enc (VDict items) p) as [Hok Hno].
    split; [|split; [exact Hno|split; [|apply escape_chr_literal]]].
    - intros He. rewrite (Hok He). now split.
    - rewrite Hacc. discriminate. }
  destruct argv as [|prog [|mode [|p rest]]];
    try (exists [(lit "error",
                  VStr (lit "Usage: python dots_ocr.py <mode> <file_path>"))];
         rewrite run_usage by (simpl; lia);
         repeat split; try discriminate; apply escape_chr_literal).
  destruct (str_eqb mode (lit "image")) eqn:Ei.
  - apply str_eqb_eq in Ei as ->.
    destruct (image_value_cases (World f [] []) p) as [r [Hr Hc]].
    apply (Hrep r p); [now apply run_image|reflexivity|tauto].
  - destruct (str_eqb mode (lit "pdf")) eqn:Ep.
    + apply str_eqb_eq in Ep as ->.
      destruct (pdf_value_cases (World f [] []) p) as [r [Hr Hc]].
      apply (Hrep r p); [now apply run_pdf|reflexivity|tauto].
    + exists [(lit "error", VStr (lit "Invalid mode. Use 'image' or 'pdf'"))].
      rewrite run_invalid; [|intros ->; discriminate..].
      repeat split; try discriminate. apply escape_chr_literal.
Qed.

(** The claim as the specification words it fails: on a strict UTF-8
    standard output, the run on a path holding the argument byte [0xff]
    writes no JSON object at all; nothing reaches standard output. *)
Lemma nothing_written_counterexample :
  run utf8_strict demo_fs [lit "dots_ocr.py"; lit "pdf"; undecodable]
    = Completed [] 1 [undecodable] /\
  output (run utf8_strict demo_fs [lit "dots_ocr.py"; lit "pdf"; undecodable])
    = [].
Proof. split; vm_compute; reflexivity. Qed.

(** ** The scenarios of the specification, run *)

Example scenario_missing_image :
  run utf8_strict demo_fs [lit "dots_ocr.py"; lit "image"; lit "./missing.png"]
    = Completed (error_line (lit "File not found: ./missing.png")) 0
        [lit "./missing.png"].
Proof. vm_compute. reflexivity. Qed.

Example scenario_existing_pdf :
  run utf8_strict demo_fs [lit "dots_ocr.py"; lit "pdf"; lit "./exists.pdf"]
    = Completed (pdf_line (lit "./exists.pdf")) 0 [lit "./exists.pdf"].
Proof. vm_compute. reflexivity. Qed.

(** A path outside ASCII reaches a UTF-8 standard output as it is, where the
    escaping encoder would have written [\u56fe]; a Latin-1 standard output
    refuses it. *)
Example scenario_image_name_not_ascii :
  run utf8_strict demo_fs [lit "dots_ocr.py"; lit "image"; demo_image_name]
    = Completed (image_line demo_image_name) 0 [demo_image_name] /\
  json_dumps true (VStr demo_image_name) = quoted (lit "./\u56fe.png") /\
  run latin1 demo_fs [lit "dots_ocr.py"; lit "image"; demo_image_name]
    = Completed [] 1 [demo_image_name].
Proof. vm_compute. repeat split; reflexivity. Qed.

(** * Further properties of the script *)

(** ** Exit status and outcome of [main] *)

Lemma accepted_modes (prog mode p : str) (rest : list str) :
  accepted (prog :: mode :: p :: rest) = true <->
  mode = lit "image" \/ mode = lit "pdf".
Proof.
  unfold accepted. rewrite orb_true_iff, !str_eqb_eq. reflexivity.
Qed.

Lemma accepted_shape (argv : list str) :
  accepted argv = true <->
  exists prog mode p rest,
    argv = prog :: mode :: p :: rest /\
    (mode = lit "image" \/ mode = lit "pdf").
Proof.
  destruct argv as [|prog [|mode [|p rest]]];
    try (split; [discriminate|intros (?&?&?&?&H&_); discriminate]).
  rewrite accepted_modes. split.
  - intros H. now exists prog, mode, p, rest.
  - intros (?&?&?&?&H&Hm). now injection H as -> -> -> ->.
Qed.

(** An accepted run has one object to print, after probing its path. *)
Lemma accepted_run (enc : codec) (f : filesystem) (argv : list str) :
  accepted argv = true ->
  exists r p,
    nth_error argv 2 = Some p /\
    run enc f argv = reported enc r p /\
    (r = not_found p \/ r = image_result p \/ r = pdf_result p \/
     exists m, r = caught m).
Proof.
  intros H. apply accepted_shape in H as (prog & mode & p & rest & -> & Hm).
  destruct Hm as [-> | ->].
  - destruct (image_value_cases (World f [] []) p) as [r [Hr Hc]].
    exists r, p. split; [reflexivity|]. split; [now apply run_image|tauto].
  - destruct (pdf_value_cases (World f [] []) p) as [r [Hr Hc]].
    exists r, p. split; [reflexivity|]. split; [now apply run_pdf|tauto].
Qed.

Lemma rejected_run (enc : codec) (f : filesystem) (argv : list str) :
  accepted argv = false ->
  exists line,
    forallb printable line = true /\
    run enc f argv = Completed (line ++ newline) 1 [].
Proof.
  intros H. destruct argv as [|prog [|mode [|p rest]]];
    try (eexists; rewrite run_usage by (simpl; lia);
         split; [|reflexivity]; reflexivity).
  exists (json_dumps true invalid_mode_error). split; [reflexivity|].
  apply run_invalid; intros ->; discriminate.
Qed.

(** X1: the exit status is 0 exactly when the invocation was accepted (a
    mode and a path are given and the mode is "image" or "pdf") and its line
    was written; in every other case it is 1: too few arguments, another
    mode, or a line that standard output refused. *)
Theorem exit_status_is_acceptance
    (enc : codec) (f : filesystem) (argv : list str) :
  (exit_status (run enc f argv) = 0 <->
   accepted argv = true /\ output (run enc f argv) <> []) /\
  (exit_status (run enc f argv) = 0 \/ exit_status (run enc f argv) = 1) /\
  (accepted argv = true <->
   exists prog mode p rest,
     argv = prog :: mode :: p :: rest /\
     (mode = lit "image" \/ mode = lit "pdf")).
Proof.
  split; [|split; [|apply accepted_shape]].
  - destruct (accepted argv) eqn:E.
    + destruct (accepted_run enc f argv E) as (r & p & _ & -> & _).
      unfold reported. destruct (encodable enc (json_dumps false r)); simpl.
      * split; [intros _; split; [reflexivity|]|reflexivity].
        now destruct (json_dumps false r).
      * split; [discriminate|intros [_ H]; now destruct H].
    + destruct (rejected_run enc f argv E) as (line & _ & ->). simpl.
      split; [discriminate|intros [H _]; discriminate].
  - destruct (accepted argv) eqn:E.
    + destruct (accepted_run enc f argv E) as (r & p & _ & -> & _).
      unfold reported. destruct (encodable enc (json_dumps false r)); simpl;
        [now left|now right].
    + destruct (rejected_run enc f argv E) as (line & _ & ->). now right.
Qed.

Lemma main_image_anywhere
    (enc : codec) (prog p : str) (rest : list str) (w : world) :
  exists r,
    main enc (prog :: lit "image" :: p :: rest) w
      = print enc (json_dumps false r) (probed_once w p) /\
    run enc (fs w) (prog :: lit "image" :: p :: rest) = reported enc r p.
Proof.
  destruct (image_returns w p) as [r Hr].
  destruct (image_returns (World (fs w) [] []) p) as [r0 Hr0].
  destruct (stubs_by_probe (World (fs w) [] []) w p (probe_at_start w p))
    as [Hi _].
  unfold result_of in Hi. rewrite Hr, Hr0 in Hi. simpl in Hi.
  injection Hi as ->. exists r.
  split; [now apply main_image|now apply run_image].
Qed.

Lemma main_pdf_anywhere
    (enc : codec) (prog p : str) (rest : list str) (w : world) :
  exists r,
    main enc (prog :: lit "pdf" :: p :: rest) w
      = print enc (json_dumps false r) (probed_once w p) /\
    run enc (fs w) (prog :: lit "pdf" :: p :: rest) = reported enc r p.
Proof.
  destruct (pdf_returns w p) as [r Hr].
  destruct (pdf_returns (World (fs w) [] []) p) as [r0 Hr0].
  destruct (stubs_by_probe (World (fs w) [] []) w p (probe_at_start w p))
    as [_ Hp].
  unfold result_of in Hp. rewrite Hr, Hr0 in Hp. simpl in Hp.
  injection Hp as ->. exists r.
  split; [now apply main_pdf|now apply run_pdf].
Qed.

(** X2: the two reads of [sys.argv] are guarded by the length check and
    never raise.  [main] returns, or leaves through [sys.exit(1)], or ends
    in the one exception nothing catches, the encoding error of [print];
    that happens in accepted invocations only, and then nothing has been
    written. *)
Theorem main_outcomes (enc : codec) (argv : list str) (w : world) :
  result_of (main enc argv) w = Returns tt \/
  result_of (main enc argv) w = Raises (SystemExit 1) \/
  (result_of (main enc argv) w = Raises (Exception encode_error) /\
   accepted argv = true /\
   stdout (snd (main enc argv w)) = stdout w).
Proof.
  unfold result_of.
  destruct argv as [|prog [|mode [|p rest]]];
    try (right; left; rewrite main_usage by (simpl; lia); reflexivity).
  destruct (str_eqb mode (lit "image")) eqn:Ei.
  - apply str_eqb_eq in Ei as ->.
    destruct (main_image_anywhere enc prog p rest w) as [r [-> _]].
    unfold print. destruct (encodable enc (json_dumps false r));
      [now left|right; right; now repeat split].
  - destruct (str_eqb mode (lit "pdf")) eqn:Ep.
    + apply str_eqb_eq in Ep as ->.
      destruct (main_pdf_anywhere enc prog p rest w) as [r [-> _]].
      unfold print. destruct (encodable enc (json_dumps false r));
        [now left|right; right; now repeat split].
    + right; left.
      rewrite main_invalid; [reflexivity| |]; intros ->; discriminate.
Qed.

(** ** What [main] does to the world *)

(** X3: run in any world, [main] leaves the file system as it was, keeps
    what was already on standard output and in the probe record, and
    appends to them exactly what a fresh run writes and probes; its exit
    status is that of the fresh run.  So earlier output is never rewritten
    and never changes what is printed. *)
Theorem main_appends_fresh_run (enc : codec) (argv : list str) (w : world) :
  snd (main enc argv w)
    = World (fs w)
        (stdout w ++ output (run enc (fs w) argv))
        (probes w ++ probed (run enc (fs w) argv)) /\
  status_of (fst (main enc argv w)) = exit_status (run enc (fs w) argv).
Proof.
  destruct argv as [|prog [|mode [|p rest]]];
    try (rewrite run_usage by (simpl; lia);
         rewrite main_usage by (simpl; lia);
         unfold printed; simpl; now rewrite app_nil_r).
  destruct (str_eqb mode (lit "image")) eqn:Ei.
  - apply str_eqb_eq in Ei as ->.
    destruct (main_image_anywhere enc prog p rest w) as [r [-> ->]].
    unfold print, reported, probed_once.
    destruct (encodable enc (json_dumps false r)); simpl;
      rewrite ?app_nil_r; now split.
  - destruct (str_eqb mode (lit "pdf")) eqn:Ep.
    + apply str_eqb_eq in Ep as ->.
      destruct (main_pdf_anywhere enc prog p rest w) as [r [-> ->]].
      unfold print, reported, probed_once.
      destruct (encodable enc (json_dumps false r)); simpl;
        rewrite ?app_nil_r; now split.
    + assert (Hi : mode <> lit "image") by (intros ->; discriminate).
      assert (Hp : mode <> lit "pdf") by (intros ->; discriminate).
      rewrite (run_invalid enc (fs w) prog mode p rest Hi Hp).
      rewrite (main_invalid enc prog mode p rest w Hi Hp).
      unfold printed; simpl; now rewrite app_nil_r.
Qed.

(** X4: in an accepted invocation the script probes exactly one path, once:
    the second argument, as given. *)
Theorem accepted_run_probes_its_path
    (enc : codec) (f : filesystem) (prog mode p : str) (rest : list str) :
  mode = lit "image" \/ mode = lit "pdf" ->
  probed (run enc f (prog :: mode :: p :: rest)) = [p].
Proof.
  intros Hm.
  destruct (accepted_run enc f (prog :: mode :: p :: rest)
              (proj2 (accepted_modes prog mode p rest) Hm))
    as (r & q & Hq & -> & _).
  simpl in Hq. injection Hq as <-.
  unfold reported. now destruct (encodable enc (json_dumps false r)).
Qed.

Lemma accepted_run_probes_its_path_witness :
  probed (run latin1 demo_fs [lit "dots_ocr.py"; lit "pdf"; lit "./missing.png";
                              lit "./exists.pdf"])
    = [lit "./missing.png"].
Proof.
  apply (accepted_run_probes_its_path latin1 demo_fs (lit "dots_ocr.py")
           (lit "pdf") (lit "./missing.png") [lit "./exists.pdf"]).
  right. reflexivity.
Defined.

(** X5: the name the script was started under plays no part: two
    invocations that differ only in [sys.argv[0]] run alike; the usage
    message names [dots_ocr.py] whatever the script is called. *)
Theorem program_name_ignored
    (enc : codec) (f : filesystem) (prog prog' : str) (args : list str) :
  run enc f (prog :: args) = run enc f (prog' :: args).
Proof.
  destruct args as [|mode [|p rest]].
  - now rewrite !run_usage by (simpl; lia).
  - now rewrite !run_usage by (simpl; lia).
  - unfold run. now rewrite !main_dispatch.
Qed.

(** ** The two modes compared *)

(** X6: on a path that standard output can encode, the two modes run alike
    exactly when no file is found there: the error object does not tell
    which mode produced it, while the two success objects differ. *)
Theorem modes_agree_iff_no_file
    (enc : codec) (f : filesystem) (prog p : str) (rest : list str) :
  encodable enc p = true ->
  run enc f (prog :: lit "image" :: p :: rest)
    = run enc f (prog :: lit "pdf" :: p :: rest)
  <-> forall c, f p <> Present c.
Proof.
  intros Hp. rewrite run_image_entry, run_pdf_entry.
  destruct (f p) as [|c|m].
  - split; [discriminate|reflexivity].
  - rewrite reported_image, reported_pdf, Hp. split.
    + intros H. simpl in H. discriminate H.
    + intros H. now destruct (H c).
  - split; [discriminate|reflexivity].
Qed.

Lemma modes_agree_iff_no_file_witness :
  run utf8_strict demo_fs [lit "dots_ocr.py"; lit "image"; demo_image_name]
    = run utf8_strict demo_fs [lit "dots_ocr.py"; lit "pdf"; demo_image_name]
  <-> forall c, demo_fs demo_image_name <> Present c.
Proof.
  apply (modes_agree_iff_no_file utf8_strict demo_fs (lit "dots_ocr.py")
           demo_image_name []).
  reflexivity.
Defined.

(** ** The line on standard output *)

Lemma digit_chr_printable (d : Z) : 0 <= d -> printable (digit_chr d) = true.
Proof.
  intros H. unfold printable, digit_chr. apply N.leb_le.
  destruct (d <? 10); lia.
Qed.

Lemma digits_fuel_printable (fuel : nat) (b n : Z) (acc : str) :
  0 < b -> forallb printable acc = true ->
  forallb printable (digits_fuel fuel b n acc) = true.
Proof.
  intros Hb. revert n acc.
  induction fuel as [|fuel IH]; intros n acc Hacc; simpl; [exact Hacc|].
  assert (Hd : forallb printable (digit_chr (n mod b) :: acc) = true).
  { simpl. rewrite Hacc, digit_chr_printable; [reflexivity|].
    pose proof (Z.mod_pos_bound n b). lia. }
  destruct (n / b =? 0); [exact Hd|]. now apply IH.
Qed.

Lemma hex4_printable (n : Z) : forallb printable (hex4 n) = true.
Proof.
  unfold hex4. rewrite forallb_app. apply andb_true_iff. split.
  - unfold zeros. induction (Z.to_nat _); [reflexivity|exact IHn0].
  - now apply digits_fuel_printable.
Qed.

Lemma escape_short_plain (c : N) (e : str) :
  escape_short c = Some e ->
  plain c = false /\ forallb printable e = true.
Proof.
  destruct c as [|q]; [discriminate|].
  do 7 (try (destruct q as [q|q|]));
    simpl; intros H; try discriminate H;
    injection H as <-; split; reflexivity.
Qed.

Lemma escape_chr_printable (c : N) : forallb printable (escape_chr c) = true.
Proof.
  unfold escape_chr. destruct (escape_short c) as [e|] eqn:E.
  - now apply escape_short_plain in E.
  - destruct (c <? 32)%N eqn:Hc.
    + unfold escape_u. rewrite forallb_app, hex4_printable. reflexivity.
    + simpl. unfold printable. apply N.ltb_ge in Hc.
      rewrite andb_true_r. now apply N.leb_le.
Qed.

Lemma encode_basestring_printable (s : str) :
  forallb printable (encode_basestring false s) = true.
Proof.
  unfold encode_basestring. rewrite !forallb_app.
  change (forallb printable quote) with true.
  rewrite andb_true_r. cbn [andb].
  induction s as [|c s IH]; [reflexivity|].
  cbn [flat_map]. now rewrite forallb_app, IH, escape_chr_printable.
Qed.

Ltac literal_printable :=
  cbn [json_dumps]; rewrite ?floatstr_confidence;
  rewrite ?forallb_app, ?encode_basestring_printable;
  reflexivity.

Lemma result_printable (r : value) (p : str) :
  r = not_found p \/ r = image_result p \/ r = pdf_result p \/
  (exists m, r = caught m) ->
  forallb printable (json_dumps false r) = true.
Proof.
  intros [->|[->|[->|[m ->]]]].
  - unfold not_found. literal_printable.
  - unfold image_result. literal_printable.
  - unfold pdf_result, pdf_page. literal_printable.
  - unfold caught. literal_printable.
Qed.

(** X7: whatever the arguments, the file system and the encoding of
    standard output, the script writes nothing (and exits with status 1:
    [print] was refused) or one line: text free of control characters (none
    below the space), then the newline of [print].  A path holding newlines
    or other control characters cannot break the line, since the encoder
    escapes them. *)
Theorem output_is_one_clean_line
    (enc : codec) (f : filesystem) (argv : list str) :
  (output (run enc f argv) = [] /\ exit_status (run enc f argv) = 1) \/
  exists line,
    output (run enc f argv) = line ++ newline /\
    Forall (fun c => (32 <= c)%N) line.
Proof.
  assert (Hok : forall line, forallb printable line = true ->
                  Forall (fun c => (32 <= c)%N) line).
  { intros line H. apply Forall_forall. intros c Hc.
    apply N.leb_le. exact (proj1 (forallb_forall _ _) H c Hc). }
  destruct (accepted argv) eqn:E.
  - destruct (accepted_run enc f argv E) as (r & p & _ & -> & Hr).
    unfold reported. destruct (encodable enc (json_dumps false r)).
    + right. exists (json_dumps false r). split; [reflexivity|].
      apply Hok, (result_printable r p Hr).
    + left. now split.
  - destruct (rejected_run enc f argv E) as (line & Hl & ->).
    right. exists line. split; [reflexivity|now apply Hok].
Qed.

(** ** The exact text, for paths that need no escaping *)

Lemma escape_chr_plain (c : N) : plain c = true -> escape_chr c = [c].
Proof.
  intros H. unfold escape_chr. destruct (escape_short c) as [e|] eqn:E.
  - apply escape_short_plain in E as [Hc _]. rewrite Hc in H. discriminate.
  - unfold plain in H. apply andb_true_iff in H as [H _].
    apply andb_true_iff in H as [H _]. apply N.leb_le in H.
    replace (c <? 32)%N with false by (symmetry; apply N.ltb_ge; lia).
    reflexivity.
Qed.

Lemma escape_plain_text (s : str) :
  forallb plain s = true -> flat_map escape_chr s = s.
Proof.
  induction s as [|c s IH]; [reflexivity|].
  simpl. intros H. apply andb_true_iff in H as [Hc Hs].
  now rewrite (escape_chr_plain c Hc), IH.
Qed.

Lemma encode_plain_text (pre s : str) :
  forallb plain pre = true -> forallb plain s = true ->
  encode_basestring false (pre ++ s) = quoted (pre ++ s).
Proof.
  intros Hpre Hs. unfold encode_basestring, quoted.
  rewrite escape_plain_text; [reflexivity|].
  rewrite forallb_app, Hpre, Hs. reflexivity.
Qed.

Lemma escape_short_length (c : N) (e : str) :
  escape_short c = Some e -> List.length e = 2%nat.
Proof.
  destruct c as [|q]; [discriminate|].
  do 7 (try (destruct q as [q|q|]));
    simpl; intros H; try discriminate H;
    injection H as <-; reflexivity.
Qed.

Lemma escape_chr_length (c : N) :
  (1 <= List.length (escape_chr c))%nat /\
  (plain c = false -> 2 <= List.length (escape_chr c))%nat.
Proof.
  unfold escape_chr. destruct (escape_short c) as [e|] eqn:E.
  - rewrite (escape_short_length c e E). lia.
  - destruct (c <? 32)%N eqn:Hc.
    + unfold escape_u. rewrite length_app. simpl. lia.
    + simpl. split; [lia|]. intros Hp. exfalso.
      unfold plain in Hp. apply N.ltb_ge in Hc.
      replace (32 <=? c)%N with true in Hp
        by (symmetry; apply N.leb_le; lia).
      destruct (c =? 34)%N eqn:E1;
        [apply N.eqb_eq in E1; subst; discriminate E|].
      destruct (c =? 92)%N eqn:E2;
        [apply N.eqb_eq in E2; subst; discriminate E|].
      discriminate Hp.
Qed.

Lemma escape_text_length (s : str) :
  (List.length s <= List.length (flat_map escape_chr s))%nat /\
  (forallb plain s = false ->
   List.length s < List.length (flat_map escape_chr s))%nat.
Proof.
  induction s as [|c s [IH1 IH2]]; simpl.
  - split; [lia|discriminate].
  - rewrite length_app. destruct (escape_chr_length c) as [H1 H2].
    split; [lia|]. intros H. apply andb_false_iff in H as [H|H].
    + specialize (H2 H). lia.
    + specialize (IH2 H). lia.
Qed.

Lemma escape_fixes_plain_only (s : str) :
  flat_map escape_chr s = s <-> forallb plain s = true.
Proof.
  split; [|apply escape_plain_text].
  intros H. destruct (forallb plain s) eqn:E; [reflexivity|].
  apply escape_text_length in E. rewrite H in E. lia.
Qed.

(** A line around one encoded text is the line around the text in quotes
    exactly when the text needs no escaping. *)
Lemma line_plain_iff (a b pre p : str) :
  forallb plain pre = true ->
  a ++ encode_basestring false (pre ++ p) ++ b = a ++ quoted (pre ++ p) ++ b
  <-> forallb plain p = true.
Proof.
  intros Hpre. split.
  - intros H. apply app_inv_head, app_inv_tail in H.
    unfold encode_basestring, quoted in H.
    apply app_inv_head, app_inv_tail in H.
    rewrite flat_map_app, (escape_plain_text pre Hpre) in H.
    apply app_inv_head in H. now apply escape_fixes_plain_only.
  - intros Hp. now rewrite (encode_plain_text pre p Hpre Hp).
Qed.

Lemma not_found_line (p : str) :
  json_dumps false (not_found p) ++ newline
    = (lit "{" ++ quoted (lit "error") ++ lit ": ")
        ++ encode_basestring false (lit "File not found: " ++ p)
        ++ (lit "}" ++ newline).
Proof.
  unfold not_found. cbn [json_dumps]. rewrite <- !app_assoc. reflexivity.
Qed.

Lemma image_result_line (p : str) :
  json_dumps false (image_result p) ++ newline
    = (lit "{" ++ quoted (lit "text") ++ lit ": ")
        ++ encode_basestring false (lit "Simulated OCR result for " ++ p)
        ++ (lit ", " ++ quoted (lit "confidence") ++ lit ": 0.95, "
              ++ quoted (lit "language") ++ lit ": " ++ quoted (lit "zh")
              ++ lit ", " ++ quoted (lit "boxes") ++ lit ": []}" ++ newline).
Proof.
  unfold image_result. cbn [json_dumps]. rewrite floatstr_confidence.
  rewrite <- !app_assoc. reflexivity.
Qed.

Lemma pdf_result_line (p : str) :
  json_dumps false (pdf_result p) ++ newline
    = (lit "{" ++ quoted (lit "pages") ++ lit ": [{"
         ++ quoted (lit "page") ++ lit ": 1, " ++ quoted (lit "text")
         ++ lit ": ")
        ++ encode_basestring false
             (lit "Simulated OCR result for page 1 of " ++ p)
        ++ (lit ", " ++ quoted (lit "confidence") ++ lit ": 0.95, "
              ++ quoted (lit "language") ++ lit ": " ++ quoted (lit "zh")
              ++ lit "}]}" ++ newline).
Proof.
  unfold pdf_result, pdf_page. cbn [json_dumps]. rewrite floatstr_confidence.
  rewrite <- !app_assoc. reflexivity.
Qed.

Lemma completed_output_iff (a b : str) (n : Z) (l : list str) :
  Completed a n l = Completed b n l <-> a = b.
Proof. split; [intros H; now injection H|now intros ->]. Qed.

(** X8: when no file exists at [p], a run in either mode writes the line
    [{"error": "File not found: p"}] with [p] as it is, and exits with
    status 0, exactly when [p] holds no quote, backslash or control
    character and standard output can encode it; any other path is written
    escaped, or not at all. *)
Theorem missing_file_line
    (enc : codec) (f : filesystem) (prog mode p : str) (rest : list str) :
  mode = lit "image" \/ mode = lit "pdf" ->
  f p = Missing ->
  run enc f (prog :: mode :: p :: rest)
    = Completed (error_line (lit "File not found: " ++ p)) 0 [p]
  <-> forallb plain p = true /\ encodable enc p = true.
Proof.
  intros Hm E.
  assert (Hrun : run enc f (prog :: mode :: p :: rest)
                 = reported enc (not_found p) p).
  { destruct Hm as [-> | ->].
    - now rewrite run_image_entry, E.
    - now rewrite run_pdf_entry, E. }
  rewrite Hrun, reported_not_found.
  destruct (encodable enc p).
  - rewrite completed_output_iff, not_found_line.
    rewrite (line_plain_iff (lit "{" ++ quoted (lit "error") ++ lit ": ")
               (lit "}" ++ newline) (lit "File not found: ") p eq_refl).
    tauto.
  - split; [discriminate|intros [_ H]; discriminate H].
Qed.

Lemma missing_file_line_witness :
  run utf8_strict demo_fs [lit "dots_ocr.py"; lit "image"; lit "./missing.png"]
    = Completed (error_line (lit "File not found: " ++ lit "./missing.png"))
        0 [lit "./missing.png"]
  <-> forallb plain (lit "./missing.png") = true /\
      encodable utf8_strict (lit "./missing.png") = true.
Proof.
  apply (missing_file_line utf8_strict demo_fs (lit "dots_ocr.py") (lit "image")
           (lit "./missing.png") []).
  - left. reflexivity.
  - reflexivity.
Defined.

(** X9: when a file exists at [p], the script writes the success line with
    [p] as it is -- in image mode the object with [text], [confidence],
    [language] and [boxes], in pdf mode the one page -- and exits with
    status 0, exactly when [p] holds no quote, backslash or control
    character and standard output can encode it. *)
Theorem success_lines
    (enc : codec) (f : filesystem) (prog p : str) (rest : list str)
    (c : list Byte.byte) :
  f p = Present c ->
  (run enc f (prog :: lit "image" :: p :: rest) = Completed (image_line p) 0 [p]
   <-> forallb plain p = true /\ encodable enc p = true) /\
  (run enc f (prog :: lit "pdf" :: p :: rest) = Completed (pdf_line p) 0 [p]
   <-> forallb plain p = true /\ encodable enc p = true).
Proof.
  intros E. split.
  - rewrite run_image_entry, E, reported_image.
    destruct (encodable enc p).
    + rewrite completed_output_iff, image_result_line.
      rewrite (line_plain_iff (lit "{" ++ quoted (lit "text") ++ lit ": ") _
                 (lit "Simulated OCR result for ") p eq_refl).
      tauto.
    + split; [discriminate|intros [_ H]; discriminate H].
  - rewrite run_pdf_entry, E, reported_pdf.
    destruct (encodable enc p).
    + rewrite completed_output_iff, pdf_result_line.
      rewrite (line_plain_iff
                 (lit "{" ++ quoted (lit "pages") ++ lit ": [{"
                    ++ quoted (lit "page") ++ lit ": 1, " ++ quoted (lit "text")
                    ++ lit ": ") _
                 (lit "Simulated OCR result for page 1 of ") p eq_refl).
      tauto.
    + split; [discriminate|intros [_ H]; discriminate H].
Qed.

Lemma success_lines_witness :
  (run utf8_strict demo_fs [lit "dots_ocr.py"; lit "image"; demo_image_name]
     = Completed (image_line demo_image_name) 0 [demo_image_name]
   <-> forallb plain demo_image_name = true /\
       encodable utf8_strict demo_image_name = true) /\
  (run utf8_strict demo_fs [lit "dots_ocr.py"; lit "pdf"; demo_image_name]
     = Completed (pdf_line demo_image_name) 0 [demo_image_name]
   <-> forallb plain demo_image_name = true /\
       encodable utf8_strict demo_image_name = true).
Proof.
  apply (success_lines utf8_strict demo_fs (lit "dots_ocr.py") demo_image_name
           [] []).
  reflexivity.
Defined.
